(** * The find-in-page panel of [browser/find_in_page_view.cc]

    A shallow embedding of [FindInPageView]: the panel's fields, the
    widgets it owns, the calls it makes on its controller, and the
    methods that track the match count, refresh the result label, lay
    the children out and react to edits of the text box.

    Conventions.
    - A C++ [int] is a [Z].  The methods below only compare, add and
      subtract pixel coordinates and counts; C++ leaves signed overflow
      undefined, so there is no wrap-around to transcribe and the model
      covers the executions in which every intermediate value is
      representable.  [/] on [int] truncates toward zero: [Z.quot].
    - A [std::wstring] is a [string].
    - A [void] method is a function from the panel before the call to
      the panel after it.  Calls on collaborators outside the widget
      tree (the controller, the system beep) are appended to the
      panel's [log_], oldest first.
    - Fonts, button images, tooltips and the label's alignment do not
      bear on any statement below and are left out, as are [OnShow],
      [ViewHierarchyChanged] and the focus forwarder's mouse handler,
      which act on the text selection, the margins and the border of
      the text field, none of which the widgets here carry. *)

From Stdlib Require Import ZArith String List Bool Lia DecimalString.
Import ListNotations.
Local Open Scope string_scope.
Local Open Scope Z_scope.

(** ** Geometry ([gfx::Size], [gfx::Rect]) *)

Module gfx.

Record Size := mkSize { width : Z; height : Z }.

(** [Size::Enlarge(w, h)] and [Size::set_width], [Size::set_height]. *)
Definition Enlarge (w h : Z) (sz : Size) : Size :=
  mkSize (width sz + w) (height sz + h).
Definition set_width (w : Z) (sz : Size) : Size := mkSize w (height sz).
Definition set_height (h : Z) (sz : Size) : Size := mkSize (width sz) h.

Record Rect := mkRect { x : Z; y : Z; w : Z; h : Z }.

Definition right (r : Rect) : Z := x r + w r.
Definition bottom (r : Rect) : Z := y r + h r.

Definition zero : Rect := mkRect 0 0 0 0.

End gfx.

(** ** Colours ([SkColor]) *)

Record SkColor := SkColorSetRGB { red : Z; green : Z; blue : Z }.

Definition SK_ColorBLACK : SkColor := SkColorSetRGB 0 0 0.

(** ** The constants of the file *)

Definition kWhiteSpaceAfterMatchCountLabel : Z := 3.
Definition kMarginLeftOfCloseButton : Z := 5.
Definition kMarginRightOfCloseButton : Z := 5.
Definition kMarginLeftOfFindTextField : Z := 12.
Definition kMatchCountExtraWidth : Z := 9.
Definition kMatchCountMinWidth : Z := 30.
Definition kTextColorMatchCount : SkColor := SkColorSetRGB 178 178 178.
Definition kTextColorNoMatch : SkColor := SK_ColorBLACK.
Definition kBackgroundColorMatch : SkColor := SkColorSetRGB 255 255 255.
Definition kBackgroundColorNoMatch : SkColor := SkColorSetRGB 255 102 102.
Definition kAnimatingEdgeHeight : Z := 5.
Definition kDefaultCharWidth : Z := 43.

(** ** Widgets ([views::TextField], [views::Label], [views::Button]) *)

(** The tags the panel registers its buttons under. *)
Inductive ButtonTag := FIND_PREVIOUS_TAG | FIND_NEXT_TAG | CLOSE_TAG.

Module views.

Record TextField := mkTextField {
  tf_text : string;                 (* GetText() *)
  tf_bounds : gfx.Rect;
  tf_default_width_in_chars : Z;
  tf_has_controller : bool;         (* SetController(this) was called *)
  tf_focus_requested : bool         (* RequestFocus() was called *)
}.

Record Label := mkLabel {
  lb_text : string;
  lb_color : SkColor;
  lb_background : option SkColor;   (* None: no background installed *)
  lb_bounds : gfx.Rect
}.

Record Button := mkButton {
  bt_enabled : bool;
  bt_focusable : bool;
  bt_bounds : gfx.Rect;
  bt_listener : option ButtonTag    (* SetListener(this, tag) *)
}.

Definition SetEnabled (e : bool) (b : Button) : Button :=
  mkButton e (bt_focusable b) (bt_bounds b) (bt_listener b).
Definition SetFocusable (f : bool) (b : Button) : Button :=
  mkButton (bt_enabled b) f (bt_bounds b) (bt_listener b).
Definition Button_SetBounds (r : gfx.Rect) (b : Button) : Button :=
  mkButton (bt_enabled b) (bt_focusable b) r (bt_listener b).
Definition SetListener (t : ButtonTag) (b : Button) : Button :=
  mkButton (bt_enabled b) (bt_focusable b) (bt_bounds b) (Some t).

Definition SetText (t : string) (l : Label) : Label :=
  mkLabel t (lb_color l) (lb_background l) (lb_bounds l).
Definition SetColor (c : SkColor) (l : Label) : Label :=
  mkLabel (lb_text l) c (lb_background l) (lb_bounds l).
Definition SetBackground (c : SkColor) (l : Label) : Label :=
  mkLabel (lb_text l) (lb_color l) (Some c) (lb_bounds l).
Definition Label_SetBounds (r : gfx.Rect) (l : Label) : Label :=
  mkLabel (lb_text l) (lb_color l) (lb_background l) r.

Definition TextField_SetBounds (r : gfx.Rect) (t : TextField) : TextField :=
  mkTextField (tf_text t) r (tf_default_width_in_chars t)
              (tf_has_controller t) (tf_focus_requested t).
Definition SetController (t : TextField) : TextField :=
  mkTextField (tf_text t) (tf_bounds t) (tf_default_width_in_chars t)
              true (tf_focus_requested t).
Definition RequestFocus (t : TextField) : TextField :=
  mkTextField (tf_text t) (tf_bounds t) (tf_default_width_in_chars t)
              (tf_has_controller t) true.
(** What the toolkit does to the field when the user edits it. *)
Definition TextField_SetText (s : string) (t : TextField) : TextField :=
  mkTextField s (tf_bounds t) (tf_default_width_in_chars t)
              (tf_has_controller t) (tf_focus_requested t).

Definition set_default_width_in_chars (n : Z) (t : TextField) : TextField :=
  mkTextField (tf_text t) (tf_bounds t) n
              (tf_has_controller t) (tf_focus_requested t).

(** A freshly constructed widget: empty, at the origin, enabled. *)
Definition new_TextField : TextField := mkTextField "" gfx.zero 0 false false.
Definition new_Label : Label := mkLabel "" SK_ColorBLACK None gfx.zero.
Definition new_Button : Button := mkButton true false gfx.zero None.

End views.

(** ** What the toolkit and the theme supply

    Preferred sizes come from fonts and bitmaps that are not part of the
    file; they are parameters of the layout. *)

Record Toolkit := mkToolkit {
  TextField_GetPreferredSize : gfx.Size;
  Label_GetPreferredSize : string -> gfx.Size;   (* depends on the text *)
  PrevButton_GetPreferredSize : gfx.Size;
  NextButton_GetPreferredSize : gfx.Size;
  CloseButton_GetPreferredSize : gfx.Size;
  kDlgBackground_middle_height : Z
}.

(** ** Calls on collaborators *)

Inductive Event :=
| set_find_string (s : string)        (* controller_->set_find_string(s) *)
| StartFinding (forward : bool)       (* controller_->StartFinding(b) *)
| StopFinding (clear_selection : bool)(* controller_->StopFinding(b) *)
| EndFindSession                      (* controller_->EndFindSession() *)
| MessageBeep.                        (* MessageBeep(MB_OK) *)

(** ** The panel *)

Record FindInPageView := mkView {
  find_text_ : views.TextField;
  match_count_text_ : views.Label;
  focus_forwarder_view_ : gfx.Rect;
  find_previous_button_ : views.Button;
  find_next_button_ : views.Button;
  close_button_ : views.Button;
  animation_offset_ : Z;
  toolbar_blend_ : bool;
  match_count_ : Z;
  active_match_ordinal_ : Z;
  bounds_ : gfx.Rect;                 (* the panel's own bounds: width(), height() *)
  log_ : list Event
}.

Definition with_find_text (t : views.TextField) (v : FindInPageView) :=
  mkView t (match_count_text_ v) (focus_forwarder_view_ v)
         (find_previous_button_ v) (find_next_button_ v) (close_button_ v)
         (animation_offset_ v) (toolbar_blend_ v) (match_count_ v)
         (active_match_ordinal_ v) (bounds_ v) (log_ v).
Definition with_match_count_text (l : views.Label) (v : FindInPageView) :=
  mkView (find_text_ v) l (focus_forwarder_view_ v)
         (find_previous_button_ v) (find_next_button_ v) (close_button_ v)
         (animation_offset_ v) (toolbar_blend_ v) (match_count_ v)
         (active_match_ordinal_ v) (bounds_ v) (log_ v).
Definition with_focus_forwarder (r : gfx.Rect) (v : FindInPageView) :=
  mkView (find_text_ v) (match_count_text_ v) r
         (find_previous_button_ v) (find_next_button_ v) (close_button_ v)
         (animation_offset_ v) (toolbar_blend_ v) (match_count_ v)
         (active_match_ordinal_ v) (bounds_ v) (log_ v).
Definition with_find_previous_button (b : views.Button) (v : FindInPageView) :=
  mkView (find_text_ v) (match_count_text_ v) (focus_forwarder_view_ v)
         b (find_next_button_ v) (close_button_ v)
         (animation_offset_ v) (toolbar_blend_ v) (match_count_ v)
         (active_match_ordinal_ v) (bounds_ v) (log_ v).
Definition with_find_next_button (b : views.Button) (v : FindInPageView) :=
  mkView (find_text_ v) (match_count_text_ v) (focus_forwarder_view_ v)
         (find_previous_button_ v) b (close_button_ v)
         (animation_offset_ v) (toolbar_blend_ v) (match_count_ v)
         (active_match_ordinal_ v) (bounds_ v) (log_ v).
Definition with_close_button (b : views.Button) (v : FindInPageView) :=
  mkView (find_text_ v) (match_count_text_ v) (focus_forwarder_view_ v)
         (find_previous_button_ v) (find_next_button_ v) b
         (animation_offset_ v) (toolbar_blend_ v) (match_count_ v)
         (active_match_ordinal_ v) (bounds_ v) (log_ v).
Definition with_match_count (n : Z) (v : FindInPageView) :=
  mkView (find_text_ v) (match_count_text_ v) (focus_forwarder_view_ v)
         (find_previous_button_ v) (find_next_button_ v) (close_button_ v)
         (animation_offset_ v) (toolbar_blend_ v) n
         (active_match_ordinal_ v) (bounds_ v) (log_ v).
Definition with_active_match_ordinal (n : Z) (v : FindInPageView) :=
  mkView (find_text_ v) (match_count_text_ v) (focus_forwarder_view_ v)
         (find_previous_button_ v) (find_next_button_ v) (close_button_ v)
         (animation_offset_ v) (toolbar_blend_ v) (match_count_ v)
         n (bounds_ v) (log_ v).
Definition with_bounds (r : gfx.Rect) (v : FindInPageView) :=
  mkView (find_text_ v) (match_count_text_ v) (focus_forwarder_view_ v)
         (find_previous_button_ v) (find_next_button_ v) (close_button_ v)
         (animation_offset_ v) (toolbar_blend_ v) (match_count_ v)
         (active_match_ordinal_ v) r (log_ v).
(** One call on a collaborator, recorded after those already made. *)
Definition emit (e : Event) (v : FindInPageView) :=
  mkView (find_text_ v) (match_count_text_ v) (focus_forwarder_view_ v)
         (find_previous_button_ v) (find_next_button_ v) (close_button_ v)
         (animation_offset_ v) (toolbar_blend_ v) (match_count_ v)
         (active_match_ordinal_ v) (bounds_ v) (log_ v ++ [e]).

(** The panel's [height()] and [width()]. *)
Definition height (v : FindInPageView) : Z := gfx.h (bounds_ v).
Definition width (v : FindInPageView) : Z := gfx.w (bounds_ v).

(** ** Construction

    The constructor creates the six members, leaves the two navigation
    buttons disabled and the counters at -1.  The label gets its colour
    but no background yet. *)
Definition FindInPageView_new : FindInPageView :=
  let find_text :=
    views.set_default_width_in_chars kDefaultCharWidth views.new_TextField in
  let match_count_text := views.SetColor kTextColorMatchCount views.new_Label in
  let find_previous_button :=
    views.SetFocusable true (views.SetEnabled false views.new_Button) in
  let find_next_button :=
    views.SetFocusable true (views.SetEnabled false views.new_Button) in
  let close_button := views.SetFocusable true views.new_Button in
  mkView find_text match_count_text gfx.zero
         find_previous_button find_next_button close_button
         0      (* animation_offset_ *)
         true   (* toolbar_blend_ *)
         (-1)   (* match_count_ *)
         (-1)   (* active_match_ordinal_ *)
         gfx.zero [].

(** ** Result-state tracking *)

Definition ResetMatchCountBackground (v : FindInPageView) : FindInPageView :=
  with_match_count_text
    (views.SetColor kTextColorMatchCount
       (views.SetBackground kBackgroundColorMatch (match_count_text_ v))) v.

Definition ResetMatchCount (v : FindInPageView) : FindInPageView :=
  ResetMatchCountBackground
    (with_match_count_text (views.SetText "" (match_count_text_ v)) v).

(** [std::wstring::empty()]. *)
Definition empty (s : string) : bool :=
  match s with EmptyString => true | String _ _ => false end.

Definition UpdateMatchCount (number_of_matches : Z) (final_update : bool)
    (v : FindInPageView) : FindInPageView :=
  if number_of_matches <? 0 then v
  else if (0 <? match_count_ v) && (number_of_matches =? 1)
          && negb final_update then v
  else
    let v := if number_of_matches =? 0
             then with_active_match_ordinal 0 v else v in
    let v := with_match_count number_of_matches v in
    if empty (views.tf_text (find_text_ v)) || (0 <? number_of_matches)
    then ResetMatchCountBackground v
    else
      let v := with_match_count_text
                 (views.SetBackground kBackgroundColorNoMatch
                    (match_count_text_ v)) v in
      let v := with_match_count_text
                 (views.SetColor kTextColorNoMatch (match_count_text_ v)) v in
      emit MessageBeep v.

Definition UpdateActiveMatchOrdinal (ordinal : Z) (v : FindInPageView)
    : FindInPageView :=
  if 0 <=? ordinal then with_active_match_ordinal ordinal v else v.

(** Modelled from the spec: [IntToWString] is not part of the file; the
    spec's example renders the counts 2 and 3 as "2" and "3", the
    decimal numerals, with a minus sign for a negative [int]. *)
Definition IntToWString (n : Z) : string :=
  NilZero.string_of_int (Z.to_int n).

(** Modelled from the spec: the resource string [IDS_FIND_IN_PAGE_COUNT]
    and [l10n_util::GetStringF] are not part of the file; the spec gives
    the rendering as "ordinal of matchCount", the first argument before
    the word and the second after it. *)
Definition GetStringF_IDS_FIND_IN_PAGE_COUNT (a b : string) : string :=
  a ++ " of " ++ b.

(** [std::max(a, b)]: [b] when [a < b], else [a]. *)
Definition std_max (a b : Z) : Z := if a <? b then b else a.

(** ** Layout *)

Definition GetPreferredSize (tk : Toolkit) (v : FindInPageView) : gfx.Size :=
  let prefsize := TextField_GetPreferredSize tk in
  let prefsize := gfx.set_height (kDlgBackground_middle_height tk) prefsize in
  let prefsize :=
    gfx.Enlarge (kMarginLeftOfCloseButton + kMarginRightOfCloseButton +
                 kMarginLeftOfFindTextField) 0 prefsize in
  let prefsize :=
    gfx.Enlarge (gfx.width (PrevButton_GetPreferredSize tk)) 0 prefsize in
  let prefsize :=
    gfx.Enlarge (gfx.width (NextButton_GetPreferredSize tk)) 0 prefsize in
  let prefsize :=
    gfx.Enlarge (gfx.width (CloseButton_GetPreferredSize tk)) 0 prefsize in
  prefsize.

(** [Layout] places the children from right to left.  The horizontal
    anchor is the panel's preferred width, not its current one; of the
    panel's own bounds only [height()] is read.  The two navigation
    buttons are placed with the width they have when the call starts
    ([find_next_button_->width()]), and sized afterwards. *)
Definition Layout (tk : Toolkit) (v : FindInPageView) : FindInPageView :=
  let panel_size := GetPreferredSize tk v in
  (* the close button, on the far right *)
  let sz := CloseButton_GetPreferredSize tk in
  let v := with_close_button
    (views.Button_SetBounds
       (gfx.mkRect (gfx.width panel_size - gfx.width sz -
                    kMarginRightOfCloseButton)
                   (Z.quot (height v - gfx.height sz) 2)
                   (gfx.width sz) (gfx.height sz))
       (close_button_ v)) v in
  let v := with_close_button
    (views.SetListener CLOSE_TAG (close_button_ v)) v in
  (* the FindNext button *)
  let sz := NextButton_GetPreferredSize tk in
  let v := with_find_next_button
    (views.Button_SetBounds
       (gfx.mkRect (gfx.x (views.bt_bounds (close_button_ v)) -
                    gfx.w (views.bt_bounds (find_next_button_ v)) -
                    kMarginLeftOfCloseButton)
                   (Z.quot (height v - gfx.height sz) 2)
                   (gfx.width sz) (gfx.height sz))
       (find_next_button_ v)) v in
  let v := with_find_next_button
    (views.SetListener FIND_NEXT_TAG (find_next_button_ v)) v in
  (* the FindPrevious button *)
  let sz := PrevButton_GetPreferredSize tk in
  let v := with_find_previous_button
    (views.Button_SetBounds
       (gfx.mkRect (gfx.x (views.bt_bounds (find_next_button_ v)) -
                    gfx.w (views.bt_bounds (find_previous_button_ v)))
                   (Z.quot (height v - gfx.height sz) 2)
                   (gfx.width sz) (gfx.height sz))
       (find_previous_button_ v)) v in
  let v := with_find_previous_button
    (views.SetListener FIND_PREVIOUS_TAG (find_previous_button_ v)) v in
  (* the match count label *)
  let sz := Label_GetPreferredSize tk (views.lb_text (match_count_text_ v)) in
  let sz := gfx.Enlarge kMatchCountExtraWidth 0 sz in
  let sz := gfx.set_width (std_max kMatchCountMinWidth (gfx.width sz)) sz in
  let v := with_match_count_text
    (views.Label_SetBounds
       (gfx.mkRect (gfx.x (views.bt_bounds (find_previous_button_ v)) -
                    kWhiteSpaceAfterMatchCountLabel - gfx.width sz)
                   (Z.quot (height v - gfx.height sz) 2 + 1)
                   (gfx.width sz) (gfx.height sz))
       (match_count_text_ v)) v in
  (* the find edit box takes what is left *)
  let sz := TextField_GetPreferredSize tk in
  let sz := gfx.set_width (gfx.x (views.lb_bounds (match_count_text_ v)) -
                           kMarginLeftOfFindTextField) sz in
  let v := with_find_text
    (views.TextField_SetBounds
       (gfx.mkRect (gfx.x (views.lb_bounds (match_count_text_ v)) -
                    gfx.width sz)
                   (Z.quot (height v - gfx.height sz) 2 + 1)
                   (gfx.width sz) (gfx.height sz))
       (find_text_ v)) v in
  let v := with_find_text (views.SetController (find_text_ v)) v in
  let v := with_find_text (views.RequestFocus (find_text_ v)) v in
  (* the focus forwarder covers the gap up to the FindPrevious button *)
  let find_text_edge := gfx.x (views.tf_bounds (find_text_ v)) +
                        gfx.w (views.tf_bounds (find_text_ v)) in
  with_focus_forwarder
    (gfx.mkRect find_text_edge
                (gfx.y (views.bt_bounds (find_previous_button_ v)))
                (gfx.x (views.bt_bounds (find_previous_button_ v)) -
                 find_text_edge)
                (gfx.h (views.bt_bounds (find_previous_button_ v)))) v.

(** ** Refreshing the label *)

Definition UpdateResultLabel (tk : Toolkit) (v : FindInPageView)
    : FindInPageView :=
  let search_string := views.tf_text (find_text_ v) in
  let v :=
    if 0 <? Z.of_nat (String.length search_string)
    then with_match_count_text
           (views.SetText
              (GetStringF_IDS_FIND_IN_PAGE_COUNT
                 (IntToWString (active_match_ordinal_ v))
                 (IntToWString (match_count_ v)))
              (match_count_text_ v)) v
    else ResetMatchCount v in
  let v := with_find_previous_button
             (views.SetEnabled (0 <? match_count_ v)
                (find_previous_button_ v)) v in
  let v := with_find_next_button
             (views.SetEnabled (0 <? match_count_ v)
                (find_next_button_ v)) v in
  Layout tk v.

(** ** The text box reports an edit *)

Definition ContentsChanged (tk : Toolkit) (new_contents : string)
    (v : FindInPageView) : FindInPageView :=
  if 0 <? Z.of_nat (String.length new_contents) then
    let v := emit (set_find_string new_contents) v in
    emit (StartFinding true) v
  else
    let v := UpdateMatchCount 0 true v in
    let v := UpdateResultLabel tk v in
    let v := emit (StopFinding true) v in
    emit (set_find_string "") v.

(** ** The button listener *)

Definition ButtonPressed (tag : ButtonTag) (v : FindInPageView)
    : FindInPageView :=
  match tag with
  | FIND_PREVIOUS_TAG | FIND_NEXT_TAG =>
      if 0 <? Z.of_nat (String.length (views.tf_text (find_text_ v))) then
        let v := emit (set_find_string (views.tf_text (find_text_ v))) v in
        emit (StartFinding
                (match tag with FIND_NEXT_TAG => true | _ => false end)) v
      else v
  | CLOSE_TAG => emit EndFindSession v
  end.

(** ** Sequences of calls

    The controller pushes counts and ordinals into the panel and asks
    for the label to be refreshed; the text box reports edits.  When the
    user edits the box the toolkit has already stored the new contents
    in the field by the time it reports them, so [CallTextChanged] first
    stores them and then runs the handler. *)

Inductive Call :=
| CallUpdateMatchCount (number_of_matches : Z) (final_update : bool)
| CallUpdateActiveMatchOrdinal (ordinal : Z)
| CallUpdateResultLabel
| CallTextChanged (new_contents : string).

Definition step (tk : Toolkit) (c : Call) (v : FindInPageView)
    : FindInPageView :=
  match c with
  | CallUpdateMatchCount n f => UpdateMatchCount n f v
  | CallUpdateActiveMatchOrdinal o => UpdateActiveMatchOrdinal o v
  | CallUpdateResultLabel => UpdateResultLabel tk v
  | CallTextChanged s =>
      ContentsChanged tk s
        (with_find_text (views.TextField_SetText s (find_text_ v)) v)
  end.

Definition run (tk : Toolkit) (cs : list Call) (v : FindInPageView)
    : FindInPageView :=
  fold_left (fun v c => step tk c v) cs v.

(** The states the panel can be in after construction. *)
Inductive reachable (tk : Toolkit) : FindInPageView -> Prop :=
| reachable_new : reachable tk FindInPageView_new
| reachable_step c v : reachable tk v -> reachable tk (step tk c v).

(** The states reached when only counts and ordinals are pushed. *)
Inductive reachable_by_updates : FindInPageView -> Prop :=
| by_updates_new : reachable_by_updates FindInPageView_new
| by_updates_count n f v :
    reachable_by_updates v -> reachable_by_updates (UpdateMatchCount n f v)
| by_updates_ordinal o v :
    reachable_by_updates v ->
    reachable_by_updates (UpdateActiveMatchOrdinal o v).

(** The same, when a positive ordinal is only ever pushed while the
    recorded count is not zero. *)
Inductive reachable_by_consistent_updates : FindInPageView -> Prop :=
| by_consistent_new : reachable_by_consistent_updates FindInPageView_new
| by_consistent_count n f v :
    reachable_by_consistent_updates v ->
    reachable_by_consistent_updates (UpdateMatchCount n f v)
| by_consistent_ordinal o v :
    reachable_by_consistent_updates v ->
    (o <= 0 \/ match_count_ v <> 0) ->
    reachable_by_consistent_updates (UpdateActiveMatchOrdinal o v).

(** ** Properties the statements below are phrased with *)

(** A zero count comes with a zero ordinal. *)
Definition zero_count_zero_ordinal (v : FindInPageView) : Prop :=
  match_count_ v = 0 -> active_match_ordinal_ v = 0.

(** [UpdateMatchCount n f] gets past both filters and stores [n]. *)
Definition accepted (n : Z) (f : bool) (v : FindInPageView) : Prop :=
  0 <= n /\ ~ (0 < match_count_ v /\ n = 1 /\ f = false).

(** The two looks of the label. *)
Definition match_found_style (l : views.Label) : Prop :=
  views.lb_background l = Some kBackgroundColorMatch /\
  views.lb_color l = kTextColorMatchCount.
Definition no_match_style (l : views.Label) : Prop :=
  views.lb_background l = Some kBackgroundColorNoMatch /\
  views.lb_color l = kTextColorNoMatch.

(** Both navigation buttons enabled, or both disabled. *)
Definition nav_buttons_enabled (v : FindInPageView) : Prop :=
  views.bt_enabled (find_previous_button_ v) = true /\
  views.bt_enabled (find_next_button_ v) = true.
Definition nav_buttons_disabled (v : FindInPageView) : Prop :=
  views.bt_enabled (find_previous_button_ v) = false /\
  views.bt_enabled (find_next_button_ v) = false.

(** Sample panels used by the examples. *)
Definition panel_with_five_matches : FindInPageView :=
  UpdateMatchCount 5 true FindInPageView_new.

(** Both navigation buttons are enabled exactly when [n] is positive. *)
Definition nav_buttons_follow (n : Z) (v : FindInPageView) : Prop :=
  views.bt_enabled (find_previous_button_ v) = (0 <? n) /\
  views.bt_enabled (find_next_button_ v) = (0 <? n).

(** A call that ends by refreshing the label: [UpdateResultLabel]
    itself, and the edit handler when the box has become empty. *)
Definition refreshes (c : Call) : bool :=
  match c with
  | CallUpdateResultLabel => true
  | CallTextChanged s => empty s
  | _ => false
  end.

(** The count that was recorded when the label was last refreshed
    during [cs]; [shown] when [cs] never refreshes it. *)
Fixpoint count_at_last_refresh (tk : Toolkit) (cs : list Call)
    (v : FindInPageView) (shown : Z) : Z :=
  match cs with
  | [] => shown
  | c :: cs' =>
      let v' := step tk c v in
      count_at_last_refresh tk cs' v'
        (if refreshes c then match_count_ v' else shown)
  end.

(** *** Geometry of the five visible children *)

Definition children_bounds (v : FindInPageView) : list gfx.Rect :=
  [ views.tf_bounds (find_text_ v);
    views.lb_bounds (match_count_text_ v);
    views.bt_bounds (find_previous_button_ v);
    views.bt_bounds (find_next_button_ v);
    views.bt_bounds (close_button_ v) ].

(** [a] ends where [b] starts, or before. *)
Definition left_of (a b : gfx.Rect) : Prop := gfx.right a <= gfx.x b.

(** [r] lies inside the panel's current bounds. *)
Definition inside_panel (v : FindInPageView) (r : gfx.Rect) : Prop :=
  0 <= gfx.x r /\ gfx.right r <= width v /\
  0 <= gfx.y r /\ gfx.bottom r <= height v.

(** The arrangement [Layout] aims at: the children side by side in the
    order text box, label, previous, next, close (every child left of
    every later one), all inside the panel, the text box starting at the
    left margin and ending where the label starts. *)
Definition laid_out_in_a_row (v : FindInPageView) : Prop :=
  ForallOrdPairs left_of (children_bounds v) /\
  Forall (inside_panel v) (children_bounds v) /\
  gfx.x (views.tf_bounds (find_text_ v)) = kMarginLeftOfFindTextField /\
  gfx.right (views.tf_bounds (find_text_ v)) =
    gfx.x (views.lb_bounds (match_count_text_ v)).

(** The label's width in the spec's words: the larger of its text's
    preferred width plus the extra padding, and the minimum width.
    [label_w] below is what [Layout] computes. *)
Definition label_width (tk : Toolkit) (v : FindInPageView) : Z :=
  Z.max (gfx.width (Label_GetPreferredSize tk
                      (views.lb_text (match_count_text_ v))) +
         kMatchCountExtraWidth)
        kMatchCountMinWidth.

(** The widths of all five children, the text box at its preferred
    width, plus the margins and gaps between them. *)
Definition children_widths_and_margins (tk : Toolkit) (v : FindInPageView)
    : Z :=
  kMarginLeftOfFindTextField +
  gfx.width (TextField_GetPreferredSize tk) +
  label_width tk v + kWhiteSpaceAfterMatchCountLabel +
  gfx.width (PrevButton_GetPreferredSize tk) +
  gfx.width (NextButton_GetPreferredSize tk) +
  kMarginLeftOfCloseButton +
  gfx.width (CloseButton_GetPreferredSize tk) +
  kMarginRightOfCloseButton.

(** No preferred size is negative. *)
Definition sizes_nonnegative (tk : Toolkit) (v : FindInPageView) : Prop :=
  0 <= gfx.width (TextField_GetPreferredSize tk) /\
  0 <= gfx.height (TextField_GetPreferredSize tk) /\
  0 <= gfx.width (Label_GetPreferredSize tk
                    (views.lb_text (match_count_text_ v))) /\
  0 <= gfx.height (Label_GetPreferredSize tk
                     (views.lb_text (match_count_text_ v))) /\
  0 <= gfx.width (PrevButton_GetPreferredSize tk) /\
  0 <= gfx.height (PrevButton_GetPreferredSize tk) /\
  0 <= gfx.width (NextButton_GetPreferredSize tk) /\
  0 <= gfx.height (NextButton_GetPreferredSize tk) /\
  0 <= gfx.width (CloseButton_GetPreferredSize tk) /\
  0 <= gfx.height (CloseButton_GetPreferredSize tk).

(** The navigation buttons already have their preferred widths, as they
    do once [Layout] has run. *)
Definition nav_buttons_sized (tk : Toolkit) (v : FindInPageView) : Prop :=
  gfx.w (views.bt_bounds (find_next_button_ v)) =
    gfx.width (NextButton_GetPreferredSize tk) /\
  gfx.w (views.bt_bounds (find_previous_button_ v)) =
    gfx.width (PrevButton_GetPreferredSize tk).

(** The panel is tall enough: the buttons fit, and the label and the
    text box, which sit one pixel lower, are strictly shorter than it. *)
Definition tall_enough (tk : Toolkit) (v : FindInPageView) : Prop :=
  gfx.height (PrevButton_GetPreferredSize tk) <= height v /\
  gfx.height (NextButton_GetPreferredSize tk) <= height v /\
  gfx.height (CloseButton_GetPreferredSize tk) <= height v /\
  gfx.height (Label_GetPreferredSize tk
                (views.lb_text (match_count_text_ v))) < height v /\
  gfx.height (TextField_GetPreferredSize tk) < height v.

(** *** Sample toolkits and panels used by the examples *)

(** A 300x20 text box, 20x20 buttons, 7 pixels per label character and
    a 31 pixel high background. *)
Definition sample_toolkit : Toolkit :=
  mkToolkit (gfx.mkSize 300 20)
            (fun s => gfx.mkSize (7 * Z.of_nat (String.length s)) 15)
            (gfx.mkSize 20 20) (gfx.mkSize 20 20) (gfx.mkSize 20 20)
            31.

(** The same widgets on a background only as high as the text box. *)
Definition snug_toolkit : Toolkit :=
  mkToolkit (gfx.mkSize 300 20)
            (fun s => gfx.mkSize (7 * Z.of_nat (String.length s)) 15)
            (gfx.mkSize 20 20) (gfx.mkSize 20 20) (gfx.mkSize 20 20)
            20.

(** A panel whose box holds [s]. *)
Definition panel_with_text (s : string) (v : FindInPageView)
    : FindInPageView :=
  with_find_text (views.TextField_SetText s (find_text_ v)) v.

(** A new panel given the bounds [500 x h] by its parent and laid out
    twice. *)
Definition panel_laid_out (tk : Toolkit) (h : Z) : FindInPageView :=
  Layout tk (Layout tk (with_bounds (gfx.mkRect 0 0 500 h)
                          FindInPageView_new)).

(** Four matches with the second one active, then no match at all. *)
Definition panel_matches_then_none : FindInPageView :=
  UpdateMatchCount 0 true
    (UpdateActiveMatchOrdinal 2 (UpdateMatchCount 4 true FindInPageView_new)).

(** A zero count followed by a positive ordinal. *)
Definition panel_zero_count_ordinal_three : FindInPageView :=
  UpdateActiveMatchOrdinal 3 (UpdateMatchCount 0 true FindInPageView_new).

(** A rectangle with no negative extent. *)
Definition proper (r : gfx.Rect) : Prop := 0 <= gfx.w r /\ 0 <= gfx.h r.

(** The text box's preferred width covers the label and the gap after
    it, so that what is left for the box is not negative. *)
Definition room_for_label (tk : Toolkit) (v : FindInPageView) : Prop :=
  label_width tk v + kWhiteSpaceAfterMatchCountLabel <=
  gfx.width (TextField_GetPreferredSize tk).

(** A new panel given the bounds [500 x h] and laid out once. *)
Definition panel_laid_out_once (tk : Toolkit) (h : Z) : FindInPageView :=
  Layout tk (with_bounds (gfx.mkRect 0 0 500 h) FindInPageView_new).

(** Where [Layout] puts the left edge of each child, from right to
    left, and the widths it gives the label and the text box. *)
Definition close_x (tk : Toolkit) (v : FindInPageView) : Z :=
  gfx.width (GetPreferredSize tk v) -
  gfx.width (CloseButton_GetPreferredSize tk) - kMarginRightOfCloseButton.
Definition next_x (tk : Toolkit) (v : FindInPageView) : Z :=
  close_x tk v - gfx.w (views.bt_bounds (find_next_button_ v)) -
  kMarginLeftOfCloseButton.
Definition prev_x (tk : Toolkit) (v : FindInPageView) : Z :=
  next_x tk v - gfx.w (views.bt_bounds (find_previous_button_ v)).
Definition label_w (tk : Toolkit) (v : FindInPageView) : Z :=
  std_max kMatchCountMinWidth
    (gfx.width (Label_GetPreferredSize tk
                  (views.lb_text (match_count_text_ v))) +
     kMatchCountExtraWidth).
Definition label_x (tk : Toolkit) (v : FindInPageView) : Z :=
  prev_x tk v - kWhiteSpaceAfterMatchCountLabel - label_w tk v.
Definition text_w (tk : Toolkit) (v : FindInPageView) : Z :=
  label_x tk v - kMarginLeftOfFindTextField.

(** ** The keyboard

    [HandleKeystroke] reads two things from outside the panel: whether
    the controller's window is visible, and the state of the shift key,
    which [GetKeyState] reports as a negative number while the key is
    down.  Both are arguments here.  [VK_RETURN] is the virtual-key code
    of the Return key. *)
Definition VK_RETURN : Z := 13.

Definition HandleKeystroke (IsVisible : bool) (GetKeyState_VK_SHIFT : Z)
    (key : Z) (v : FindInPageView) : FindInPageView :=
  if negb IsVisible then v
  else if key =? VK_RETURN then
    let find_string := views.tf_text (find_text_ v) in
    if 0 <? Z.of_nat (String.length find_string) then
      let v := emit (set_find_string find_string) v in
      emit (StartFinding (0 <=? GetKeyState_VK_SHIFT)) v
    else v
  else v.

(** ** Everything that can happen to a panel

    The calls of the controller and the text box, a button press, a
    keystroke, and a layout pass requested by the toolkit. *)
Inductive Input :=
| InCall (c : Call)
| InButtonPressed (tag : ButtonTag)
| InKeystroke (IsVisible : bool) (GetKeyState_VK_SHIFT : Z) (key : Z)
| InLayout.

Definition react (tk : Toolkit) (i : Input) (v : FindInPageView)
    : FindInPageView :=
  match i with
  | InCall c => step tk c v
  | InButtonPressed tag => ButtonPressed tag v
  | InKeystroke vis shift key => HandleKeystroke vis shift key v
  | InLayout => Layout tk v
  end.

Definition react_all (tk : Toolkit) (inputs : list Input)
    (v : FindInPageView) : FindInPageView :=
  fold_left (fun v i => react tk i v) inputs v.

(** The groups of calls the panel makes on its collaborators: a beep,
    the end of the session, "stop and forget the search string", and
    "here is a non-empty search string, start". *)
Definition is_block (b : list Event) : bool :=
  match b with
  | [MessageBeep] => true
  | [EndFindSession] => true
  | [StopFinding true; set_find_string s] => empty s
  | [set_find_string s; StartFinding _] => negb (empty s)
  | _ => false
  end.

(** ** Painting

    [Paint] issues [TileImageInt] calls on the canvas.  A bitmap is
    known by its resource and has a size; the resource bundle, the
    reading direction and the mirroring of a child's bounds belong to
    the toolkit and are arguments. *)

Inductive ResourceId :=
| IDR_FIND_DLG_LEFT_BACKGROUND
| IDR_FIND_DLG_MIDDLE_BACKGROUND
| IDR_FIND_DLG_RIGHT_BACKGROUND
| IDR_FIND_DLG_LEFT_BB_BACKGROUND
| IDR_FIND_DLG_MIDDLE_BB_BACKGROUND
| IDR_FIND_DLG_RIGHT_BB_BACKGROUND
| IDR_FIND_BOX_BACKGROUND
| IDR_FIND_BOX_BACKGROUND_LEFT
| IDR_FIND_BOX_BACKGROUND_LEFT_RTL.

Record PaintEnv := mkPaintEnv {
  GetBitmapNamed : ResourceId -> gfx.Size;
  UILayoutIsRightToLeft : bool;
  GetBounds_mirrored : gfx.Rect -> gfx.Rect     (* GetBounds(APPLY_MIRRORING_TRANSFORMATION) *)
}.

(** Modelled from the spec: [View::GetLocalBounds] is not part of the
    file; the spec has the background fitted to the panel's width, so
    [GetLocalBounds(true)] is the panel's own [width()] and [height()],
    from the origin. *)
Definition GetLocalBounds (v : FindInPageView) : gfx.Rect :=
  gfx.mkRect 0 0 (width v) (height v).

(** One [canvas->TileImageInt(bitmap, x, y, w, h)]. *)
Record TileImageInt := mkTile {
  tile_bitmap : ResourceId;
  tile_x : Z; tile_y : Z; tile_w : Z; tile_h : Z
}.

Definition tile_right (t : TileImageInt) : Z := tile_x t + tile_w t.

(** The bitmaps the constructor caches on first use. *)
Definition kDlgBackground_left := IDR_FIND_DLG_LEFT_BACKGROUND.
Definition kDlgBackground_middle := IDR_FIND_DLG_MIDDLE_BACKGROUND.
Definition kDlgBackground_right := IDR_FIND_DLG_RIGHT_BACKGROUND.
Definition kDlgBackground_bb_left := IDR_FIND_DLG_LEFT_BB_BACKGROUND.
Definition kDlgBackground_bb_middle := IDR_FIND_DLG_MIDDLE_BB_BACKGROUND.
Definition kDlgBackground_bb_right := IDR_FIND_DLG_RIGHT_BB_BACKGROUND.
Definition kBackground := IDR_FIND_BOX_BACKGROUND.
Definition kBackground_left (env : PaintEnv) : ResourceId :=
  if UILayoutIsRightToLeft env then IDR_FIND_BOX_BACKGROUND_LEFT_RTL
  else IDR_FIND_BOX_BACKGROUND_LEFT.

(** The canvas calls of [Paint], in the order they are made. *)
Definition Paint (env : PaintEnv) (v : FindInPageView) : list TileImageInt :=
  let bm := GetBitmapNamed env in
  let lb := GetLocalBounds v in
  let bg_left :=
    if toolbar_blend_ v then kDlgBackground_left else kDlgBackground_bb_left in
  let bg_middle :=
    if toolbar_blend_ v then kDlgBackground_middle
    else kDlgBackground_bb_middle in
  let bg_right :=
    if toolbar_blend_ v then kDlgBackground_right
    else kDlgBackground_bb_right in
  let t1 := mkTile bg_left 0 0
              (gfx.width (bm bg_left)) (gfx.height (bm bg_left)) in
  let t2 := mkTile bg_middle (gfx.width (bm bg_left)) 0
              (gfx.w lb - gfx.width (bm bg_left) - gfx.width (bm bg_right))
              (gfx.height (bm bg_middle)) in
  let t3 := mkTile bg_right (gfx.right lb - gfx.width (bm bg_right)) 0
              (gfx.width (bm bg_right)) (gfx.height (bm bg_right)) in
  let find_text_rect :=
    if UILayoutIsRightToLeft env
    then GetBounds_mirrored env (views.tf_bounds (find_text_ v))
    else views.tf_bounds (find_text_ v) in
  let back_button_rect :=
    if UILayoutIsRightToLeft env
    then GetBounds_mirrored env (views.bt_bounds (find_previous_button_ v))
    else views.bt_bounds (find_previous_button_ v) in
  let x :=
    if UILayoutIsRightToLeft env then gfx.right find_text_rect
    else gfx.x find_text_rect - gfx.width (bm (kBackground_left env)) in
  let w :=
    if UILayoutIsRightToLeft env
    then gfx.right find_text_rect - gfx.right back_button_rect
    else gfx.x back_button_rect - gfx.x find_text_rect in
  let t4 := mkTile (kBackground_left env) x (gfx.y back_button_rect)
              (gfx.width (bm (kBackground_left env)))
              (gfx.height (bm (kBackground_left env))) in
  let background_height := gfx.height (bm kBackground) in
  let t5 := mkTile kBackground
              (if UILayoutIsRightToLeft env
               then gfx.right back_button_rect else gfx.x find_text_rect)
              (gfx.y back_button_rect) w background_height in
  [t1; t2; t3; t4; t5] ++
  (if 0 <? animation_offset_ v then
     [ mkTile bg_left (gfx.x lb) (animation_offset_ v)
         (gfx.width (bm bg_left)) kAnimatingEdgeHeight;
       mkTile bg_right (gfx.right lb - gfx.width (bm bg_right))
         (animation_offset_ v) (gfx.width (bm bg_right))
         kAnimatingEdgeHeight ]
   else []).

Definition with_animation_offset (n : Z) (v : FindInPageView) :=
  mkView (find_text_ v) (match_count_text_ v) (focus_forwarder_view_ v)
         (find_previous_button_ v) (find_next_button_ v) (close_button_ v)
         n (toolbar_blend_ v) (match_count_ v)
         (active_match_ordinal_ v) (bounds_ v) (log_ v).

(** A child is centred between the panel's top and bottom edges when
    the space above and the space below differ by at most one pixel;
    [bias] is the number of pixels it was pushed down afterwards. *)
Definition centred_vertically (bias : Z) (panel_height : Z) (r : gfx.Rect)
    : Prop :=
  let above := gfx.y r - bias in
  let below := panel_height - (gfx.y r - bias) - gfx.h r in
  -1 <= below - above <= 1.

(** A left-to-right theme for the examples: 10 pixel wide caps, a 1
    pixel wide middle, all 31 pixels high; a 4 x 24 rounded cap. *)
Definition sample_paint_env : PaintEnv :=
  mkPaintEnv
    (fun r => match r with
              | IDR_FIND_DLG_MIDDLE_BACKGROUND
              | IDR_FIND_DLG_MIDDLE_BB_BACKGROUND => gfx.mkSize 1 31
              | IDR_FIND_BOX_BACKGROUND => gfx.mkSize 1 24
              | IDR_FIND_BOX_BACKGROUND_LEFT
              | IDR_FIND_BOX_BACKGROUND_LEFT_RTL => gfx.mkSize 4 24
              | _ => gfx.mkSize 10 31
              end)
    false (fun r => r).

(** From [v] to [v'] the log grew by whole groups of calls. *)
Definition extends_by_blocks (v v' : FindInPageView) : Prop :=
  exists bs : list (list Event),
    forallb is_block bs = true /\ log_ v' = (log_ v ++ concat bs)%list.

(** No input but an edit of the box. *)
Definition is_edit (i : Input) : bool :=
  match i with InCall (CallTextChanged _) => true | _ => false end.

(** The inputs that write the ordinal: a count of zero, an ordinal that
    is not negative, and an edit that empties the box. *)
Definition sets_ordinal (i : Input) : bool :=
  match i with
  | InCall (CallUpdateMatchCount n _) => n =? 0
  | InCall (CallUpdateActiveMatchOrdinal o) => 0 <=? o
  | InCall (CallTextChanged s) => empty s
  | _ => false
  end.

(** Case analysis on the tests a method makes. *)
Ltac split_tests :=
  repeat match goal with
  | |- context [?a <? ?b] => destruct (Z.ltb_spec a b)
  | |- context [?a <=? ?b] => destruct (Z.leb_spec a b)
  | |- context [?a =? ?b] => destruct (Z.eqb_spec a b)
  | |- context [negb ?f] => is_var f; destruct f
  | |- context [empty ?s] => destruct (empty s) eqn:?
  end; cbn [andb orb negb].

(** Unfolds the geometric vocabulary down to arithmetic on [Z]. *)
Ltac to_arithmetic :=
  unfold left_of, inside_panel, proper, gfx.right, gfx.bottom;
  cbn [gfx.x gfx.y gfx.w gfx.h];
  unfold kMarginLeftOfCloseButton, kMarginRightOfCloseButton,
    kMarginLeftOfFindTextField, kWhiteSpaceAfterMatchCountLabel,
    kMatchCountExtraWidth, kMatchCountMinWidth in *.

(** * Result-state tracking *)

Lemma empty_true_iff (s : string) : empty s = true <-> s = "".
Proof. destruct s; cbn; split; congruence. Qed.

Lemma length_positive_iff (s : string) :
  (0 <? Z.of_nat (String.length s)) = negb (empty s).
Proof. destruct s; cbn [String.length empty negb]; [reflexivity | ]. apply Z.ltb_lt. lia. Qed.

Section UpdateMatchCount_facts.

Variable v : FindInPageView.

(** The three outcomes of [UpdateMatchCount]. *)
Lemma UpdateMatchCount_negative n f : n < 0 -> UpdateMatchCount n f v = v.
Proof. intros Hn. unfold UpdateMatchCount. split_tests; (reflexivity || lia). Qed.

Lemma UpdateMatchCount_suppressed :
  0 < match_count_ v -> UpdateMatchCount 1 false v = v.
Proof. intros Hm. unfold UpdateMatchCount. split_tests; (reflexivity || lia). Qed.

Lemma UpdateMatchCount_accepted n f :
  accepted n f v ->
  UpdateMatchCount n f v =
    let v1 := if n =? 0 then with_active_match_ordinal 0 v else v in
    let v2 := with_match_count n v1 in
    if empty (views.tf_text (find_text_ v)) || (0 <? n)
    then ResetMatchCountBackground v2
    else emit MessageBeep
           (with_match_count_text
              (views.SetColor kTextColorNoMatch
                 (views.SetBackground kBackgroundColorNoMatch
                    (match_count_text_ v2))) v2).
Proof.
  intros [Hn Hs]. unfold UpdateMatchCount.
  destruct (Z.ltb_spec n 0); [lia | ].
  destruct ((0 <? match_count_ v) && (n =? 1) && negb f) eqn:E.
  - exfalso. apply Hs.
    apply andb_true_iff in E as [E Hf]. apply andb_true_iff in E as [Hm H1].
    apply Z.ltb_lt in Hm. apply Z.eqb_eq in H1.
    destruct f; [discriminate | auto].
  - destruct (Z.eqb_spec n 0); reflexivity.
Qed.

Lemma UpdateMatchCount_keeps_buttons n f :
  find_previous_button_ (UpdateMatchCount n f v) = find_previous_button_ v /\
  find_next_button_ (UpdateMatchCount n f v) = find_next_button_ v.
Proof. unfold UpdateMatchCount. split_tests; split; reflexivity. Qed.

Lemma UpdateMatchCount_keeps_text n f :
  find_text_ (UpdateMatchCount n f v) = find_text_ v.
Proof. unfold UpdateMatchCount. split_tests; reflexivity. Qed.

Lemma UpdateActiveMatchOrdinal_keeps_buttons o :
  find_previous_button_ (UpdateActiveMatchOrdinal o v) =
    find_previous_button_ v /\
  find_next_button_ (UpdateActiveMatchOrdinal o v) = find_next_button_ v.
Proof. unfold UpdateActiveMatchOrdinal. split_tests; split; reflexivity. Qed.

(** [UpdateMatchCount] never breaks "zero count, zero ordinal". *)
Lemma UpdateMatchCount_zero_ordinal n f :
  zero_count_zero_ordinal v ->
  zero_count_zero_ordinal (UpdateMatchCount n f v).
Proof.
  unfold zero_count_zero_ordinal, UpdateMatchCount. intros Hv.
  split_tests; cbn; intros; (assumption || reflexivity || lia || auto).
Qed.

End UpdateMatchCount_facts.

(** C1.  Once a positive count is recorded, [UpdateMatchCount(1, false)]
    changes nothing at all (so the count stays what it was), while
    [UpdateMatchCount(1, true)] records 1. *)
Theorem UpdateMatchCount_provisional_one (v : FindInPageView) :
  0 < match_count_ v ->
  UpdateMatchCount 1 false v = v /\
  match_count_ (UpdateMatchCount 1 false v) = match_count_ v /\
  match_count_ (UpdateMatchCount 1 true v) = 1.
Proof.
  intros Hm. rewrite (UpdateMatchCount_suppressed v Hm).
  repeat split.
  unfold UpdateMatchCount. split_tests; (reflexivity || lia).
Qed.

(** The same on the panel that recorded five matches. *)
Lemma UpdateMatchCount_provisional_one_at_five :
  match_count_ panel_with_five_matches = 5 /\
  UpdateMatchCount 1 false panel_with_five_matches = panel_with_five_matches /\
  match_count_ (UpdateMatchCount 1 false panel_with_five_matches) =
    match_count_ panel_with_five_matches /\
  match_count_ (UpdateMatchCount 1 true panel_with_five_matches) = 1.
Proof.
  split; [reflexivity | ].
  apply (UpdateMatchCount_provisional_one panel_with_five_matches).
  reflexivity.
Defined.

(** C2, as the spec has it, fails: after a zero count the controller can
    still push a positive ordinal, and [UpdateActiveMatchOrdinal] stores
    it without looking at the count. *)
Lemma zero_count_nonzero_ordinal_reachable :
  reachable_by_updates panel_zero_count_ordinal_three /\
  ~ zero_count_zero_ordinal panel_zero_count_ordinal_three.
Proof.
  split.
  - unfold panel_zero_count_ordinal_three. do 2 constructor. constructor.
  - unfold zero_count_zero_ordinal. cbn. intros H.
    specialize (H eq_refl). discriminate.
Qed.

(** C2, amended.  As long as a positive ordinal is only pushed while the
    recorded count is not zero, a zero count always comes with a zero
    ordinal; [UpdateMatchCount] alone can never separate the two. *)
Theorem zero_count_zero_ordinal_invariant (v : FindInPageView) :
  reachable_by_consistent_updates v -> zero_count_zero_ordinal v.
Proof.
  induction 1 as [ | n f v Hv IH | o v Hv IH Hguard ].
  - unfold zero_count_zero_ordinal. cbn. discriminate.
  - apply UpdateMatchCount_zero_ordinal, IH.
  - unfold zero_count_zero_ordinal, UpdateActiveMatchOrdinal in *.
    destruct (Z.leb_spec 0 o); cbn; [ | exact IH].
    intros Hz. destruct Hguard; [lia | contradiction].
Qed.

(** The invariant on a panel that had matches and then none. *)
Lemma zero_count_zero_ordinal_after_reset :
  reachable_by_consistent_updates panel_matches_then_none /\
  match_count_ panel_matches_then_none = 0 /\
  active_match_ordinal_ panel_matches_then_none = 0.
Proof.
  assert (R : reachable_by_consistent_updates panel_matches_then_none).
  { unfold panel_matches_then_none.
    apply by_consistent_count, by_consistent_ordinal.
    - apply by_consistent_count, by_consistent_new.
    - right. vm_compute. discriminate. }
  split; [exact R | ]. split; [reflexivity | ].
  apply (zero_count_zero_ordinal_invariant _ R). reflexivity.
Defined.

(** C3.  A negative count is dropped: [UpdateMatchCount] returns the
    panel it was given, so the count, the ordinal, the label's text and
    colours and the buttons are what they were.  A negative ordinal is
    dropped in the same way; any other ordinal is stored. *)
Theorem negative_updates_ignored
    (v : FindInPageView) (count : Z) (final_update : bool)
    (stale ordinal : Z) :
  count < 0 -> stale < 0 -> 0 <= ordinal ->
  UpdateMatchCount count final_update v = v /\
  UpdateActiveMatchOrdinal stale v = v /\
  UpdateActiveMatchOrdinal ordinal v = with_active_match_ordinal ordinal v /\
  active_match_ordinal_ (UpdateActiveMatchOrdinal ordinal v) = ordinal.
Proof.
  intros Hc Hs Ho. split; [apply UpdateMatchCount_negative, Hc | ].
  unfold UpdateActiveMatchOrdinal.
  destruct (Z.leb_spec 0 stale); [lia | ].
  destruct (Z.leb_spec 0 ordinal); [ | lia].
  repeat split.
Qed.

Lemma negative_updates_ignored_at_five :
  UpdateMatchCount (-1) false panel_with_five_matches =
    panel_with_five_matches /\
  UpdateActiveMatchOrdinal (-1) panel_with_five_matches =
    panel_with_five_matches /\
  UpdateActiveMatchOrdinal 2 panel_with_five_matches =
    with_active_match_ordinal 2 panel_with_five_matches /\
  active_match_ordinal_ (UpdateActiveMatchOrdinal 2 panel_with_five_matches)
    = 2.
Proof.
  apply (negative_updates_ignored panel_with_five_matches (-1) false (-1) 2);
    lia.
Defined.

(** C8.  An update that is stored leaves the label in the "match found"
    look, with no beep, when the box is empty or the stored count is
    positive ([v], [n]); otherwise ([w], [m]) it leaves it in the "no
    match" look and beeps exactly once. *)
Theorem UpdateMatchCount_style
    (v w : FindInPageView) (n m : Z) (f g : bool) :
  accepted n f v -> accepted m g w ->
  views.tf_text (find_text_ v) = "" \/ 0 < n ->
  ~ (views.tf_text (find_text_ w) = "" \/ 0 < m) ->
  (match_count_ (UpdateMatchCount n f v) = n /\
   match_found_style (match_count_text_ (UpdateMatchCount n f v)) /\
   log_ (UpdateMatchCount n f v) = log_ v) /\
  (match_count_ (UpdateMatchCount m g w) = m /\
   no_match_style (match_count_text_ (UpdateMatchCount m g w)) /\
   log_ (UpdateMatchCount m g w) = (log_ w ++ [MessageBeep])%list).
Proof.
  intros Hv Hw Hfound Hnone.
  rewrite (UpdateMatchCount_accepted v n f Hv).
  rewrite (UpdateMatchCount_accepted w m g Hw).
  cbn zeta. split.
  - assert (E : empty (views.tf_text (find_text_ v)) || (0 <? n) = true).
    { apply orb_true_iff. destruct Hfound as [Ht | Hn].
      - left. apply empty_true_iff, Ht.
      - right. apply Z.ltb_lt, Hn. }
    rewrite E. destruct (n =? 0); repeat split.
  - assert (E : empty (views.tf_text (find_text_ w)) || (0 <? m) = false).
    { apply orb_false_iff. split.
      - destruct (empty _) eqn:Ht; [ | reflexivity].
        exfalso. apply Hnone. left. apply empty_true_iff, Ht.
      - apply Z.ltb_ge. destruct (Z.le_gt_cases m 0); [assumption | ].
        exfalso. apply Hnone. right. lia. }
    rewrite E. destruct (m =? 0); repeat split.
Qed.

(** Seven matches arrive for an empty box; no match is found for "abc". *)
Lemma UpdateMatchCount_style_examples :
  (match_count_ (UpdateMatchCount 7 false FindInPageView_new) = 7 /\
   match_found_style
     (match_count_text_ (UpdateMatchCount 7 false FindInPageView_new)) /\
   log_ (UpdateMatchCount 7 false FindInPageView_new) = []) /\
  (match_count_
     (UpdateMatchCount 0 true (panel_with_text "abc" FindInPageView_new)) = 0 /\
   no_match_style
     (match_count_text_
        (UpdateMatchCount 0 true (panel_with_text "abc" FindInPageView_new))) /\
   log_ (UpdateMatchCount 0 true (panel_with_text "abc" FindInPageView_new))
     = [MessageBeep]).
Proof.
  apply (UpdateMatchCount_style
           FindInPageView_new (panel_with_text "abc" FindInPageView_new)
           7 0 false true).
  - split; [lia | ]. cbn. intros [H _]. lia.
  - split; [lia | ]. cbn. intros [H _]. lia.
  - left. reflexivity.
  - cbn. intros [H | H]; [discriminate | lia].
Defined.

(** What the constructor leaves in the counters and the navigation
    buttons. *)
Lemma FindInPageView_new_counters :
  match_count_ FindInPageView_new = -1 /\
  active_match_ordinal_ FindInPageView_new = -1 /\
  nav_buttons_disabled FindInPageView_new /\
  ~ 0 <= active_match_ordinal_ FindInPageView_new.
Proof.
  repeat split. cbn. lia.
Qed.

(** * Refreshing the label *)

Section Layout_keeps.

Variable tk : Toolkit.
Variable v : FindInPageView.

(** [Layout] moves the children and nothing else. *)
Lemma Layout_keeps_state :
  match_count_ (Layout tk v) = match_count_ v /\
  active_match_ordinal_ (Layout tk v) = active_match_ordinal_ v /\
  log_ (Layout tk v) = log_ v /\
  bounds_ (Layout tk v) = bounds_ v /\
  views.tf_text (find_text_ (Layout tk v)) = views.tf_text (find_text_ v).
Proof. repeat split. Qed.

Lemma Layout_keeps_label :
  views.lb_text (match_count_text_ (Layout tk v)) =
    views.lb_text (match_count_text_ v) /\
  views.lb_color (match_count_text_ (Layout tk v)) =
    views.lb_color (match_count_text_ v) /\
  views.lb_background (match_count_text_ (Layout tk v)) =
    views.lb_background (match_count_text_ v).
Proof. repeat split. Qed.

Lemma Layout_keeps_enabled :
  views.bt_enabled (find_previous_button_ (Layout tk v)) =
    views.bt_enabled (find_previous_button_ v) /\
  views.bt_enabled (find_next_button_ (Layout tk v)) =
    views.bt_enabled (find_next_button_ v).
Proof. repeat split. Qed.

(** What [UpdateResultLabel] leaves behind, field by field. *)
Lemma UpdateResultLabel_state :
  match_count_ (UpdateResultLabel tk v) = match_count_ v /\
  active_match_ordinal_ (UpdateResultLabel tk v) = active_match_ordinal_ v /\
  log_ (UpdateResultLabel tk v) = log_ v.
Proof.
  unfold UpdateResultLabel.
  destruct (0 <? Z.of_nat (String.length (views.tf_text (find_text_ v))));
    repeat split.
Qed.

Lemma UpdateResultLabel_buttons :
  nav_buttons_follow (match_count_ v) (UpdateResultLabel tk v).
Proof.
  unfold UpdateResultLabel, nav_buttons_follow.
  destruct (0 <? Z.of_nat (String.length (views.tf_text (find_text_ v))));
    split; reflexivity.
Qed.

Lemma UpdateResultLabel_empty :
  views.tf_text (find_text_ v) = "" ->
  views.lb_text (match_count_text_ (UpdateResultLabel tk v)) = "" /\
  match_found_style (match_count_text_ (UpdateResultLabel tk v)).
Proof.
  intros Ht. unfold UpdateResultLabel. rewrite Ht. cbn [String.length Z.of_nat].
  repeat split.
Qed.

Lemma UpdateResultLabel_nonempty :
  views.tf_text (find_text_ v) <> "" ->
  views.lb_text (match_count_text_ (UpdateResultLabel tk v)) =
    GetStringF_IDS_FIND_IN_PAGE_COUNT
      (IntToWString (active_match_ordinal_ v))
      (IntToWString (match_count_ v)) /\
  views.lb_color (match_count_text_ (UpdateResultLabel tk v)) =
    views.lb_color (match_count_text_ v) /\
  views.lb_background (match_count_text_ (UpdateResultLabel tk v)) =
    views.lb_background (match_count_text_ v).
Proof.
  intros Ht. unfold UpdateResultLabel. rewrite length_positive_iff.
  destruct (empty _) eqn:E; [apply empty_true_iff in E; contradiction | ].
  repeat split.
Qed.

End Layout_keeps.

(** C5, as the spec has it, fails: with an empty box the refresh still
    enables the buttons when a positive count is on record, as it is
    when a count arrives for a box that has been emptied since. *)
Lemma UpdateResultLabel_empty_box_buttons_enabled :
  reachable sample_toolkit panel_with_five_matches /\
  views.tf_text (find_text_ panel_with_five_matches) = "" /\
  ~ nav_buttons_disabled
      (UpdateResultLabel sample_toolkit panel_with_five_matches).
Proof.
  split.
  - apply (reachable_step sample_toolkit (CallUpdateMatchCount 5 true)).
    constructor.
  - split; [reflexivity | ].
    intros [H _]. vm_compute in H. discriminate.
Qed.

(** C5, amended.  With an empty box ([blank]) the refresh clears the
    label and gives it the "match found" look; with a non-empty box
    ([typed]) it renders "ordinal of count".  In both cases each
    navigation button ends up enabled exactly when the count is
    positive; count 3 and ordinal 2 give "2 of 3" and enabled buttons. *)
Theorem UpdateResultLabel_renders
    (tk : Toolkit) (blank typed : FindInPageView) :
  views.tf_text (find_text_ blank) = "" ->
  views.tf_text (find_text_ typed) <> "" ->
  (views.lb_text (match_count_text_ (UpdateResultLabel tk blank)) = "" /\
   match_found_style (match_count_text_ (UpdateResultLabel tk blank)) /\
   nav_buttons_follow (match_count_ blank) (UpdateResultLabel tk blank)) /\
  (views.lb_text (match_count_text_ (UpdateResultLabel tk typed)) =
     GetStringF_IDS_FIND_IN_PAGE_COUNT
       (IntToWString (active_match_ordinal_ typed))
       (IntToWString (match_count_ typed)) /\
   nav_buttons_follow (match_count_ typed) (UpdateResultLabel tk typed)) /\
  (match_count_ typed = 3 -> active_match_ordinal_ typed = 2 ->
   views.lb_text (match_count_text_ (UpdateResultLabel tk typed)) = "2 of 3"
   /\ nav_buttons_enabled (UpdateResultLabel tk typed)).
Proof.
  intros Hb Ht.
  pose proof (UpdateResultLabel_empty tk blank Hb) as [Hb1 Hb2].
  pose proof (UpdateResultLabel_nonempty tk typed Ht) as [Ht1 _].
  pose proof (UpdateResultLabel_buttons tk blank) as Hb3.
  pose proof (UpdateResultLabel_buttons tk typed) as Ht3.
  split; [ | split].
  - split; [exact Hb1 | split; [exact Hb2 | exact Hb3]].
  - split; [exact Ht1 | exact Ht3].
  - intros Hc Ho. split.
    + rewrite Ht1, Hc, Ho. reflexivity.
    + destruct Ht3 as [Hp Hn]. rewrite Hc in Hp, Hn.
      split; assumption.
Qed.

(** The refresh on an emptied box that still has five matches on
    record, and on a box holding "abc" with the second of three matches
    active. *)
Lemma UpdateResultLabel_renders_examples :
  (views.lb_text
     (match_count_text_
        (UpdateResultLabel sample_toolkit panel_with_five_matches)) = "" /\
   match_found_style
     (match_count_text_
        (UpdateResultLabel sample_toolkit panel_with_five_matches)) /\
   nav_buttons_follow 5
     (UpdateResultLabel sample_toolkit panel_with_five_matches)) /\
  views.lb_text
    (match_count_text_
       (UpdateResultLabel sample_toolkit
          (UpdateActiveMatchOrdinal 2
             (UpdateMatchCount 3 true
                (panel_with_text "abc" FindInPageView_new))))) = "2 of 3" /\
  nav_buttons_enabled
    (UpdateResultLabel sample_toolkit
       (UpdateActiveMatchOrdinal 2
          (UpdateMatchCount 3 true
             (panel_with_text "abc" FindInPageView_new)))).
Proof.
  destruct (UpdateResultLabel_renders sample_toolkit
              panel_with_five_matches
              (UpdateActiveMatchOrdinal 2
                 (UpdateMatchCount 3 true
                    (panel_with_text "abc" FindInPageView_new))))
    as [Hblank [_ Htyped]].
  - reflexivity.
  - cbn. discriminate.
  - split; [exact Hblank | ]. apply Htyped; reflexivity.
Defined.

(** * The navigation buttons across calls *)

(** [emit] adds to the log and leaves the rest alone. *)
Lemma emit_match_count e v : match_count_ (emit e v) = match_count_ v.
Proof. reflexivity. Qed.
Lemma emit_active_match_ordinal e v :
  active_match_ordinal_ (emit e v) = active_match_ordinal_ v.
Proof. reflexivity. Qed.
Lemma emit_previous_button e v :
  find_previous_button_ (emit e v) = find_previous_button_ v.
Proof. reflexivity. Qed.
Lemma emit_next_button e v :
  find_next_button_ (emit e v) = find_next_button_ v.
Proof. reflexivity. Qed.
Lemma emit_match_count_text e v :
  match_count_text_ (emit e v) = match_count_text_ v.
Proof. reflexivity. Qed.
Lemma emit_log e v : log_ (emit e v) = (log_ v ++ [e])%list.
Proof. reflexivity. Qed.

(** The handler for an emptied box, call by call. *)
Lemma ContentsChanged_empty_eq (tk : Toolkit) (v : FindInPageView) :
  ContentsChanged tk "" v =
    emit (set_find_string "")
      (emit (StopFinding true)
         (UpdateResultLabel tk (UpdateMatchCount 0 true v))).
Proof. reflexivity. Qed.

(** The handler for an emptied box ends with the buttons in step with
    the count it has just reset. *)
Lemma ContentsChanged_empty_buttons (tk : Toolkit) (v : FindInPageView) :
  nav_buttons_follow (match_count_ (ContentsChanged tk "" v))
    (ContentsChanged tk "" v).
Proof.
  rewrite ContentsChanged_empty_eq. unfold nav_buttons_follow.
  rewrite !emit_match_count, !emit_previous_button, !emit_next_button.
  destruct (UpdateResultLabel_state tk (UpdateMatchCount 0 true v)) as [-> _].
  exact (UpdateResultLabel_buttons tk (UpdateMatchCount 0 true v)).
Qed.

(** One call keeps the buttons in step with the count that was on
    record when the label was last refreshed. *)
Lemma step_nav_buttons (tk : Toolkit) (c : Call) (v : FindInPageView)
    (shown : Z) :
  nav_buttons_follow shown v ->
  nav_buttons_follow
    (if refreshes c then match_count_ (step tk c v) else shown)
    (step tk c v).
Proof.
  intros Hv. destruct c as [n f | o | | s]; cbn [refreshes step].
  - unfold nav_buttons_follow.
    destruct (UpdateMatchCount_keeps_buttons v n f) as [-> ->]. exact Hv.
  - unfold nav_buttons_follow.
    destruct (UpdateActiveMatchOrdinal_keeps_buttons v o) as [-> ->]. exact Hv.
  - destruct (UpdateResultLabel_state tk v) as [-> _].
    apply UpdateResultLabel_buttons.
  - destruct s as [ | a s]; cbn [empty].
    + apply ContentsChanged_empty_buttons.
    + exact Hv.
Qed.

Lemma run_nav_buttons (tk : Toolkit) (cs : list Call) :
  forall (v : FindInPageView) (shown : Z),
  nav_buttons_follow shown v ->
  nav_buttons_follow (count_at_last_refresh tk cs v shown) (run tk cs v).
Proof.
  induction cs as [ | c cs IH]; intros v shown Hv; cbn.
  - exact Hv.
  - apply IH, step_nav_buttons, Hv.
Qed.

(** C4, as the spec has it, fails: a count that has just been stored
    does not touch the buttons; they stay disabled until the label is
    refreshed. *)
Lemma count_stored_buttons_still_disabled :
  reachable sample_toolkit panel_with_five_matches /\
  ~ nav_buttons_follow (match_count_ panel_with_five_matches)
      panel_with_five_matches.
Proof.
  split.
  - apply (reachable_step sample_toolkit (CallUpdateMatchCount 5 true)).
    constructor.
  - intros [H _]. vm_compute in H. discriminate.
Qed.

(** C4, amended.  After any sequence of calls on a new panel, the
    navigation buttons are enabled exactly when the count that was on
    record at the last refresh of the label (at construction, when it
    was never refreshed) is positive.  So they agree with the current
    count right after [UpdateResultLabel] and right after the box was
    emptied, whatever the panel was before. *)
Theorem nav_buttons_follow_last_refresh (tk : Toolkit) (cs : list Call) :
  nav_buttons_follow
    (count_at_last_refresh tk cs FindInPageView_new
       (match_count_ FindInPageView_new))
    (run tk cs FindInPageView_new) /\
  (forall v, nav_buttons_follow (match_count_ (UpdateResultLabel tk v))
               (UpdateResultLabel tk v)) /\
  (forall v, nav_buttons_follow (match_count_ (ContentsChanged tk "" v))
               (ContentsChanged tk "" v)).
Proof.
  split; [ | split].
  - apply run_nav_buttons. split; reflexivity.
  - intros v. destruct (UpdateResultLabel_state tk v) as [-> _].
    apply UpdateResultLabel_buttons.
  - intros v. apply ContentsChanged_empty_buttons.
Qed.

(** * The text box reports an edit *)

(** C6.  When the box has become empty ([v], whose field is empty) the
    handler resets the count to 0 as a final update, refreshes the
    label, which comes out cleared and in the "match found" look with
    the buttons disabled, then calls [StopFinding(true)] once and
    [set_find_string] with the empty string, in this order, and never
    [StartFinding].  When the new contents are not empty it calls
    [set_find_string] with them and then [StartFinding(true)], and
    leaves the rest of the panel alone. *)
Theorem ContentsChanged_calls
    (tk : Toolkit) (v w : FindInPageView) (new_contents : string) :
  views.tf_text (find_text_ v) = "" ->
  new_contents <> "" ->
  (ContentsChanged tk "" v =
     emit (set_find_string "")
       (emit (StopFinding true)
          (UpdateResultLabel tk (UpdateMatchCount 0 true v))) /\
   match_count_ (ContentsChanged tk "" v) = 0 /\
   active_match_ordinal_ (ContentsChanged tk "" v) = 0 /\
   views.lb_text (match_count_text_ (ContentsChanged tk "" v)) = "" /\
   match_found_style (match_count_text_ (ContentsChanged tk "" v)) /\
   nav_buttons_disabled (ContentsChanged tk "" v) /\
   log_ (ContentsChanged tk "" v) =
     (log_ v ++ [StopFinding true; set_find_string ""])%list) /\
  (ContentsChanged tk new_contents w =
     emit (StartFinding true) (emit (set_find_string new_contents) w) /\
   log_ (ContentsChanged tk new_contents w) =
     (log_ w ++ [set_find_string new_contents; StartFinding true])%list).
Proof.
  intros Hblank Hnew. split.
  - rewrite ContentsChanged_empty_eq.
    assert (Hacc : accepted 0 true v).
    { split; [lia | ]. intros (_ & H & _). discriminate. }
    pose proof (UpdateMatchCount_accepted v 0 true Hacc) as E.
    rewrite Hblank in E. cbn [empty orb Z.eqb] in E. cbv zeta in E.
    set (v1 := UpdateMatchCount 0 true v) in *.
    assert (Hc : match_count_ v1 = 0) by (rewrite E; reflexivity).
    assert (Ho : active_match_ordinal_ v1 = 0) by (rewrite E; reflexivity).
    assert (Hl : log_ v1 = log_ v) by (rewrite E; reflexivity).
    assert (Ht : views.tf_text (find_text_ v1) = "")
      by (rewrite E; exact Hblank).
    destruct (UpdateResultLabel_state tk v1) as (Sc & So & Sl).
    destruct (UpdateResultLabel_empty tk v1 Ht) as [Lt Ls].
    destruct (UpdateResultLabel_buttons tk v1) as [Bp Bn].
    rewrite Hc in Bp, Bn.
    unfold nav_buttons_disabled.
    rewrite !emit_match_count, !emit_active_match_ordinal,
      !emit_match_count_text, !emit_previous_button, !emit_next_button,
      !emit_log.
    rewrite Sc, So, Sl, Hc, Ho, Hl, <- app_assoc.
    split; [reflexivity | ]. split; [reflexivity | ].
    split; [reflexivity | ]. split; [exact Lt | ].
    split; [exact Ls | ]. split; [ | reflexivity].
    split; [exact Bp | exact Bn].
  - unfold ContentsChanged. rewrite length_positive_iff.
    destruct new_contents; [contradiction | ]. cbn [empty negb].
    split; [reflexivity | ].
    rewrite !emit_log, <- app_assoc. reflexivity.
Qed.

(** The handler runs for a panel with five matches on record whose box
    is now empty, and for "abcd" typed into a new panel. *)
Lemma ContentsChanged_calls_examples :
  (match_count_
     (ContentsChanged sample_toolkit "" panel_with_five_matches) = 0 /\
   nav_buttons_disabled
     (ContentsChanged sample_toolkit "" panel_with_five_matches) /\
   log_ (ContentsChanged sample_toolkit "" panel_with_five_matches) =
     [StopFinding true; set_find_string ""]) /\
  log_ (ContentsChanged sample_toolkit "abcd" FindInPageView_new) =
    [set_find_string "abcd"; StartFinding true].
Proof.
  destruct (ContentsChanged_calls sample_toolkit
              panel_with_five_matches FindInPageView_new "abcd")
    as [(_ & Hc & _ & _ & _ & Hb & Hl) (_ & Hn)].
  - reflexivity.
  - discriminate.
  - split; [ | exact Hn]. split; [exact Hc | ]. split; [exact Hb | exact Hl].
Defined.

(** * Layout *)

Lemma std_max_is_max (a b : Z) : std_max a b = Z.max b a.
Proof. unfold std_max. destruct (Z.ltb_spec a b); lia. Qed.

Section Layout_bounds.

Variable tk : Toolkit.
Variable v : FindInPageView.

Lemma GetPreferredSize_width :
  gfx.width (GetPreferredSize tk v) =
    gfx.width (TextField_GetPreferredSize tk) +
    (kMarginLeftOfCloseButton + kMarginRightOfCloseButton +
     kMarginLeftOfFindTextField) +
    gfx.width (PrevButton_GetPreferredSize tk) +
    gfx.width (NextButton_GetPreferredSize tk) +
    gfx.width (CloseButton_GetPreferredSize tk).
Proof.
  unfold text_w, label_x, label_w, prev_x, next_x, close_x. reflexivity.
Qed.

Lemma Layout_close_button :
  views.bt_bounds (close_button_ (Layout tk v)) =
    gfx.mkRect (close_x tk v)
      (Z.quot (height v - gfx.height (CloseButton_GetPreferredSize tk)) 2)
      (gfx.width (CloseButton_GetPreferredSize tk))
      (gfx.height (CloseButton_GetPreferredSize tk)).
Proof.
  unfold text_w, label_x, label_w, prev_x, next_x, close_x. reflexivity.
Qed.

Lemma Layout_find_next_button :
  views.bt_bounds (find_next_button_ (Layout tk v)) =
    gfx.mkRect (next_x tk v)
      (Z.quot (height v - gfx.height (NextButton_GetPreferredSize tk)) 2)
      (gfx.width (NextButton_GetPreferredSize tk))
      (gfx.height (NextButton_GetPreferredSize tk)).
Proof.
  unfold text_w, label_x, label_w, prev_x, next_x, close_x. reflexivity.
Qed.

Lemma Layout_find_previous_button :
  views.bt_bounds (find_previous_button_ (Layout tk v)) =
    gfx.mkRect (prev_x tk v)
      (Z.quot (height v - gfx.height (PrevButton_GetPreferredSize tk)) 2)
      (gfx.width (PrevButton_GetPreferredSize tk))
      (gfx.height (PrevButton_GetPreferredSize tk)).
Proof.
  unfold text_w, label_x, label_w, prev_x, next_x, close_x. reflexivity.
Qed.

Lemma Layout_match_count_text :
  views.lb_bounds (match_count_text_ (Layout tk v)) =
    gfx.mkRect (label_x tk v)
      (Z.quot (height v -
               gfx.height (Label_GetPreferredSize tk
                             (views.lb_text (match_count_text_ v)))) 2 + 1)
      (label_w tk v)
      (gfx.height (Label_GetPreferredSize tk
                     (views.lb_text (match_count_text_ v)))).
Proof.
  (* [Enlarge(kMatchCountExtraWidth, 0)] adds 0 to the height *)
  rewrite <- (Z.add_0_r (gfx.height (Label_GetPreferredSize tk
                           (views.lb_text (match_count_text_ v))))).
  unfold label_x, label_w, prev_x, next_x, close_x. reflexivity.
Qed.

Lemma Layout_find_text :
  views.tf_bounds (find_text_ (Layout tk v)) =
    gfx.mkRect ((label_x tk v) - (text_w tk v))
      (Z.quot (height v - gfx.height (TextField_GetPreferredSize tk)) 2 + 1)
      (text_w tk v)
      (gfx.height (TextField_GetPreferredSize tk)).
Proof.
  unfold text_w, label_x, label_w, prev_x, next_x, close_x. reflexivity.
Qed.

(** One pass of [Layout] gives the navigation buttons their preferred
    widths, which the next pass then places them by. *)
Lemma Layout_sizes_nav_buttons : nav_buttons_sized tk (Layout tk v).
Proof.
  unfold nav_buttons_sized.
  rewrite Layout_find_next_button, Layout_find_previous_button.
  split; reflexivity.
Qed.

End Layout_bounds.

(** C9.  [Layout] makes the label as wide as its text plus the extra
    9 pixels, but never narrower than the 30 pixel minimum, whatever
    the text's own width. *)
Theorem Layout_label_width (tk : Toolkit) (v : FindInPageView) :
  gfx.w (views.lb_bounds (match_count_text_ (Layout tk v))) =
    Z.max (gfx.width (Label_GetPreferredSize tk
                        (views.lb_text (match_count_text_ v))) +
           kMatchCountExtraWidth)
          kMatchCountMinWidth /\
  kMatchCountMinWidth <=
    gfx.w (views.lb_bounds (match_count_text_ (Layout tk v))).
Proof.
  rewrite Layout_match_count_text. cbn [gfx.w]. unfold label_w.
  rewrite std_max_is_max. split; [reflexivity | lia].
Qed.

(** C7, as the spec has it, fails.  This panel is much wider than its
    children and margins together and has been laid out before, yet the
    text box, which is as high as the panel and is placed one pixel
    below centre, ends below the panel's bottom edge. *)
Lemma Layout_text_box_below_panel :
  children_widths_and_margins snug_toolkit (panel_laid_out snug_toolkit 20)
    <= width (panel_laid_out snug_toolkit 20) /\
  nav_buttons_sized snug_toolkit (panel_laid_out snug_toolkit 20) /\
  ~ laid_out_in_a_row (Layout snug_toolkit (panel_laid_out snug_toolkit 20)).
Proof.
  split; [vm_compute; discriminate | ].
  split; [split; reflexivity | ].
  intros (_ & Hin & _). unfold children_bounds in Hin.
  apply Forall_inv in Hin. destruct Hin as (_ & _ & _ & Hb).
  vm_compute in Hb. apply Hb. reflexivity.
Qed.

(** The first pass over a new panel places the navigation buttons by
    the zero width they still have: the next button then reaches into
    the close button and the previous button covers the next one. *)
Lemma first_Layout_overlaps :
  ~ left_of
      (views.bt_bounds
         (find_next_button_ (panel_laid_out_once sample_toolkit 31)))
      (views.bt_bounds
         (close_button_ (panel_laid_out_once sample_toolkit 31))) /\
  views.bt_bounds
    (find_previous_button_ (panel_laid_out_once sample_toolkit 31)) =
  views.bt_bounds
    (find_next_button_ (panel_laid_out_once sample_toolkit 31)).
Proof.
  split; [ | reflexivity].
  vm_compute. intros H. apply H. reflexivity.
Qed.

(** C7, amended.  [Layout] works from the panel's preferred width and
    from the widths the navigation buttons have on entry.  When these
    are their preferred widths, no preferred size is negative, the text
    box's preferred width covers the label and its gap, and the panel is
    tall enough and at least as wide as it prefers to be, the five
    children end up side by side in the order text box, label,
    previous, next, close, inside the panel and with no negative
    extent.  The text box starts at the left margin, ends where the
    label starts, and gets its preferred width less the label and the
    gap; the close button ends one margin short of the preferred
    width. *)
Theorem Layout_in_a_row (tk : Toolkit) (v : FindInPageView) :
  sizes_nonnegative tk v ->
  nav_buttons_sized tk v ->
  room_for_label tk v ->
  tall_enough tk v ->
  gfx.width (GetPreferredSize tk v) <= width v ->
  laid_out_in_a_row (Layout tk v) /\
  Forall proper (children_bounds (Layout tk v)) /\
  gfx.w (views.tf_bounds (find_text_ (Layout tk v))) =
    gfx.width (TextField_GetPreferredSize tk) -
    kWhiteSpaceAfterMatchCountLabel - label_width tk v /\
  gfx.right (views.bt_bounds (close_button_ (Layout tk v))) =
    gfx.width (GetPreferredSize tk v) - kMarginRightOfCloseButton.
Proof.
  intros Hsz [Hn Hp] Hroom Htall Hwide.
  unfold laid_out_in_a_row, children_bounds, inside_panel, width, height.
  destruct (Layout_keeps_state tk v) as (_ & _ & _ & -> & _).
  rewrite Layout_find_text, Layout_match_count_text,
    Layout_find_previous_button, Layout_find_next_button,
    Layout_close_button.
  unfold text_w, label_x, prev_x, next_x, close_x.
  rewrite Hn, Hp.
  unfold room_for_label, label_width in *.
  fold (label_w tk v). unfold label_w.
  rewrite <- std_max_is_max in *.
  set (lw := std_max _ _) in *.
  assert (Hlw : 30 <= lw)
    by (subst lw; rewrite std_max_is_max; unfold kMatchCountMinWidth; lia).
  rewrite GetPreferredSize_width in *.
  unfold sizes_nonnegative, tall_enough, width, height in *.
  destruct Hsz as (? & ? & ? & ? & ? & ? & ? & ? & ? & ?).
  destruct Htall as (? & ? & ? & ? & ?).
  to_arithmetic.
  repeat match goal with
  | |- _ /\ _ => split
  | |- ForallOrdPairs _ _ => constructor
  | |- Forall _ _ => constructor
  end;
  to_arithmetic; Z.to_euclidean_division_equations; lia.
Qed.

(** The sample panel, 500 x 31, on its second pass. *)
Lemma Layout_in_a_row_sample :
  laid_out_in_a_row (Layout sample_toolkit (panel_laid_out_once sample_toolkit 31)) /\
  Forall proper
    (children_bounds
       (Layout sample_toolkit (panel_laid_out_once sample_toolkit 31))) /\
  gfx.w (views.tf_bounds
           (find_text_
              (Layout sample_toolkit (panel_laid_out_once sample_toolkit 31))))
    = 300 - 3 - 30 /\
  gfx.right
    (views.bt_bounds
       (close_button_
          (Layout sample_toolkit (panel_laid_out_once sample_toolkit 31))))
    = 382 - 5.
Proof.
  apply (Layout_in_a_row sample_toolkit (panel_laid_out_once sample_toolkit 31)).
  - vm_compute. repeat split; discriminate.
  - split; reflexivity.
  - vm_compute. discriminate.
  - vm_compute. repeat split; discriminate.
  - vm_compute. discriminate.
Defined.

(** * Buttons and keys *)

Lemma emit_find_text e v : find_text_ (emit e v) = find_text_ v.
Proof. reflexivity. Qed.

(** A press of Previous or Next on an empty box ([blank]) changes
    nothing and reaches no collaborator.  On a non-empty box ([typed])
    it hands the box's text to the controller and then starts finding,
    forward for Next and backward for Previous, and changes nothing
    else.  Close ends the session whatever the box holds. *)
Theorem ButtonPressed_calls (blank typed any : FindInPageView) :
  views.tf_text (find_text_ blank) = "" ->
  views.tf_text (find_text_ typed) <> "" ->
  (ButtonPressed FIND_PREVIOUS_TAG blank = blank /\
   ButtonPressed FIND_NEXT_TAG blank = blank) /\
  (ButtonPressed FIND_NEXT_TAG typed =
     emit (StartFinding true)
       (emit (set_find_string (views.tf_text (find_text_ typed))) typed) /\
   ButtonPressed FIND_PREVIOUS_TAG typed =
     emit (StartFinding false)
       (emit (set_find_string (views.tf_text (find_text_ typed))) typed)) /\
  ButtonPressed CLOSE_TAG any = emit EndFindSession any.
Proof.
  intros Hb Ht. unfold ButtonPressed.
  rewrite !length_positive_iff, Hb. cbn [empty negb].
  destruct (empty (views.tf_text (find_text_ typed))) eqn:E.
  - apply empty_true_iff in E. contradiction.
  - cbn [negb]. repeat split.
Qed.

Lemma ButtonPressed_calls_examples :
  (ButtonPressed FIND_PREVIOUS_TAG FindInPageView_new = FindInPageView_new /\
   ButtonPressed FIND_NEXT_TAG FindInPageView_new = FindInPageView_new) /\
  (ButtonPressed FIND_NEXT_TAG (panel_with_text "abc" FindInPageView_new) =
     emit (StartFinding true)
       (emit (set_find_string "abc")
          (panel_with_text "abc" FindInPageView_new)) /\
   ButtonPressed FIND_PREVIOUS_TAG (panel_with_text "abc" FindInPageView_new) =
     emit (StartFinding false)
       (emit (set_find_string "abc")
          (panel_with_text "abc" FindInPageView_new))) /\
  ButtonPressed CLOSE_TAG FindInPageView_new =
    emit EndFindSession FindInPageView_new.
Proof.
  apply (ButtonPressed_calls FindInPageView_new
           (panel_with_text "abc" FindInPageView_new) FindInPageView_new).
  - reflexivity.
  - cbn. discriminate.
Defined.

(** While the panel is visible, Return does to every panel exactly what
    a press of Next does, and Return with the shift key down exactly
    what a press of Previous does. *)
Theorem Return_key_is_a_button_press
    (shift_up shift_down : Z) (v : FindInPageView) :
  0 <= shift_up -> shift_down < 0 ->
  HandleKeystroke true shift_up VK_RETURN v = ButtonPressed FIND_NEXT_TAG v /\
  HandleKeystroke true shift_down VK_RETURN v =
    ButtonPressed FIND_PREVIOUS_TAG v.
Proof.
  intros Hu Hd. unfold HandleKeystroke, ButtonPressed.
  cbn [negb]. rewrite Z.eqb_refl.
  destruct (Z.leb_spec 0 shift_up); [ | lia].
  destruct (Z.leb_spec 0 shift_down); [lia | ].
  destruct (0 <? Z.of_nat (String.length (views.tf_text (find_text_ v))));
    split; reflexivity.
Qed.

Lemma Return_key_is_a_button_press_example :
  HandleKeystroke true 0 VK_RETURN (panel_with_text "abc" FindInPageView_new)
    = ButtonPressed FIND_NEXT_TAG (panel_with_text "abc" FindInPageView_new) /\
  HandleKeystroke true (-128) VK_RETURN
      (panel_with_text "abc" FindInPageView_new)
    = ButtonPressed FIND_PREVIOUS_TAG
        (panel_with_text "abc" FindInPageView_new).
Proof.
  apply (Return_key_is_a_button_press 0 (-128)
           (panel_with_text "abc" FindInPageView_new)); lia.
Defined.

(** A keystroke is dropped, leaving the panel as it was, when the
    panel is not visible, when the key is not Return, or when the box is
    empty. *)
Theorem HandleKeystroke_ignored
    (IsVisible : bool) (shift key : Z) (v : FindInPageView) :
  IsVisible = false \/ key <> VK_RETURN \/
    views.tf_text (find_text_ v) = "" ->
  HandleKeystroke IsVisible shift key v = v.
Proof.
  intros H. unfold HandleKeystroke. rewrite length_positive_iff.
  destruct IsVisible; cbn [negb]; [ | reflexivity].
  destruct (Z.eqb_spec key VK_RETURN); [ | reflexivity].
  destruct H as [H | [H | H]]; [discriminate | contradiction | ].
  rewrite H. reflexivity.
Qed.

Lemma HandleKeystroke_ignored_example :
  HandleKeystroke true 0 65 (panel_with_text "abc" FindInPageView_new) =
    panel_with_text "abc" FindInPageView_new.
Proof.
  apply (HandleKeystroke_ignored true 0 65).
  right. left. discriminate.
Defined.

(** * What holds across every input *)

Lemma UpdateResultLabel_search_text tk v :
  views.tf_text (find_text_ (UpdateResultLabel tk v)) =
    views.tf_text (find_text_ v).
Proof.
  unfold UpdateResultLabel.
  destruct (0 <? Z.of_nat (String.length (views.tf_text (find_text_ v))));
    reflexivity.
Qed.

Lemma ContentsChanged_search_text tk s v :
  views.tf_text (find_text_ (ContentsChanged tk s v)) =
    views.tf_text (find_text_ v).
Proof.
  unfold ContentsChanged.
  destruct (0 <? Z.of_nat (String.length s)).
  - reflexivity.
  - rewrite !emit_find_text, UpdateResultLabel_search_text,
      UpdateMatchCount_keeps_text. reflexivity.
Qed.

Lemma extends_same v v' : log_ v' = log_ v -> extends_by_blocks v v'.
Proof.
  intros E. exists []. split; [reflexivity | ].
  cbn. rewrite app_nil_r. exact E.
Qed.

Lemma extends_one b v v' :
  is_block b = true -> log_ v' = (log_ v ++ b)%list ->
  extends_by_blocks v v'.
Proof.
  intros Hb E. exists [b]. split; [cbn; rewrite Hb; reflexivity | ].
  cbn. rewrite app_nil_r. exact E.
Qed.

Lemma extends_trans v1 v2 v3 :
  extends_by_blocks v1 v2 -> extends_by_blocks v2 v3 ->
  extends_by_blocks v1 v3.
Proof.
  intros (b1 & H1 & E1) (b2 & H2 & E2). exists (b1 ++ b2)%list. split.
  - rewrite forallb_app, H1, H2. reflexivity.
  - rewrite E2, E1, concat_app, app_assoc. reflexivity.
Qed.

Section One_input.

Variable tk : Toolkit.
Variable v : FindInPageView.

Lemma UpdateMatchCount_log n f :
  log_ (UpdateMatchCount n f v) = log_ v \/
  log_ (UpdateMatchCount n f v) = (log_ v ++ [MessageBeep])%list.
Proof. unfold UpdateMatchCount. split_tests; auto. Qed.

Lemma UpdateMatchCount_counters n f :
  (match_count_ (UpdateMatchCount n f v) = match_count_ v \/
   0 <= match_count_ (UpdateMatchCount n f v)) /\
  (active_match_ordinal_ (UpdateMatchCount n f v) = active_match_ordinal_ v \/
   0 <= active_match_ordinal_ (UpdateMatchCount n f v)).
Proof.
  unfold UpdateMatchCount.
  split_tests; cbn; split; first [left; reflexivity | right; lia].
Qed.

Lemma UpdateMatchCount_extends n f :
  extends_by_blocks v (UpdateMatchCount n f v).
Proof.
  destruct (UpdateMatchCount_log n f) as [E | E].
  - apply extends_same, E.
  - apply (extends_one [MessageBeep]); [reflexivity | exact E].
Qed.

Lemma UpdateActiveMatchOrdinal_fields o :
  log_ (UpdateActiveMatchOrdinal o v) = log_ v /\
  find_text_ (UpdateActiveMatchOrdinal o v) = find_text_ v /\
  match_count_ (UpdateActiveMatchOrdinal o v) = match_count_ v /\
  (active_match_ordinal_ (UpdateActiveMatchOrdinal o v) =
     active_match_ordinal_ v \/
   0 <= active_match_ordinal_ (UpdateActiveMatchOrdinal o v)).
Proof.
  unfold UpdateActiveMatchOrdinal.
  destruct (Z.leb_spec 0 o); cbn; repeat split; auto.
Qed.

Lemma ButtonPressed_fields tag :
  find_text_ (ButtonPressed tag v) = find_text_ v /\
  match_count_ (ButtonPressed tag v) = match_count_ v /\
  active_match_ordinal_ (ButtonPressed tag v) = active_match_ordinal_ v.
Proof.
  unfold ButtonPressed.
  destruct tag;
    try destruct (0 <? Z.of_nat (String.length (views.tf_text (find_text_ v))));
    repeat split.
Qed.

Lemma ButtonPressed_extends tag : extends_by_blocks v (ButtonPressed tag v).
Proof.
  unfold ButtonPressed. rewrite length_positive_iff.
  destruct tag.
  - destruct (empty (views.tf_text (find_text_ v))) eqn:E; cbn [negb];
      [apply extends_same; reflexivity | ].
    apply (extends_one [set_find_string (views.tf_text (find_text_ v));
                        StartFinding false]).
    + cbn. rewrite E. reflexivity.
    + rewrite !emit_log, <- app_assoc. reflexivity.
  - destruct (empty (views.tf_text (find_text_ v))) eqn:E; cbn [negb];
      [apply extends_same; reflexivity | ].
    apply (extends_one [set_find_string (views.tf_text (find_text_ v));
                        StartFinding true]).
    + cbn. rewrite E. reflexivity.
    + rewrite !emit_log, <- app_assoc. reflexivity.
  - apply (extends_one [EndFindSession]); reflexivity.
Qed.

Lemma HandleKeystroke_fields vis shift key :
  find_text_ (HandleKeystroke vis shift key v) = find_text_ v /\
  match_count_ (HandleKeystroke vis shift key v) = match_count_ v /\
  active_match_ordinal_ (HandleKeystroke vis shift key v) =
    active_match_ordinal_ v.
Proof.
  unfold HandleKeystroke.
  destruct vis; cbn [negb]; [ | repeat split].
  destruct (key =? VK_RETURN); [ | repeat split].
  destruct (0 <? Z.of_nat (String.length (views.tf_text (find_text_ v))));
    repeat split.
Qed.

Lemma HandleKeystroke_extends vis shift key :
  extends_by_blocks v (HandleKeystroke vis shift key v).
Proof.
  unfold HandleKeystroke. rewrite length_positive_iff.
  destruct vis; cbn [negb]; [ | apply extends_same; reflexivity].
  destruct (key =? VK_RETURN); [ | apply extends_same; reflexivity].
  destruct (empty (views.tf_text (find_text_ v))) eqn:E; cbn [negb];
    [apply extends_same; reflexivity | ].
  apply (extends_one [set_find_string (views.tf_text (find_text_ v));
                      StartFinding (0 <=? shift)]).
  - cbn. rewrite E. reflexivity.
  - rewrite !emit_log, <- app_assoc. reflexivity.
Qed.

Lemma ContentsChanged_extends s :
  extends_by_blocks v (ContentsChanged tk s v).
Proof.
  destruct s as [ | a s].
  - rewrite ContentsChanged_empty_eq.
    apply (extends_trans _ (UpdateMatchCount 0 true v));
      [apply UpdateMatchCount_extends | ].
    apply (extends_one [StopFinding true; set_find_string ""]);
      [reflexivity | ].
    rewrite !emit_log, <- app_assoc.
    destruct (UpdateResultLabel_state tk (UpdateMatchCount 0 true v))
      as (_ & _ & ->).
    reflexivity.
  - unfold ContentsChanged. rewrite length_positive_iff. cbn [empty negb].
    apply (extends_one [set_find_string (String a s); StartFinding true]);
      [reflexivity | ].
    rewrite !emit_log, <- app_assoc. reflexivity.
Qed.

Lemma ContentsChanged_counters s :
  (match_count_ (ContentsChanged tk s v) = match_count_ v \/
   0 <= match_count_ (ContentsChanged tk s v)) /\
  (active_match_ordinal_ (ContentsChanged tk s v) = active_match_ordinal_ v \/
   0 <= active_match_ordinal_ (ContentsChanged tk s v)).
Proof.
  destruct s as [ | a s].
  - rewrite ContentsChanged_empty_eq.
    rewrite !emit_match_count, !emit_active_match_ordinal.
    destruct (UpdateResultLabel_state tk (UpdateMatchCount 0 true v))
      as (-> & -> & _).
    apply UpdateMatchCount_counters.
  - unfold ContentsChanged. rewrite length_positive_iff. cbn [empty negb].
    split; left; reflexivity.
Qed.

End One_input.

Lemma react_extends tk i v : extends_by_blocks v (react tk i v).
Proof.
  destruct i as [[n f | o | | s] | tag | vis shift key | ]; cbn [react step].
  - apply UpdateMatchCount_extends.
  - apply extends_same. apply UpdateActiveMatchOrdinal_fields.
  - apply extends_same. apply UpdateResultLabel_state.
  - destruct (ContentsChanged_extends tk
                (with_find_text (views.TextField_SetText s (find_text_ v)) v) s)
      as (bs & Hbs & E).
    exists bs. split; [exact Hbs | exact E].
  - apply ButtonPressed_extends.
  - apply HandleKeystroke_extends.
  - apply extends_same. apply Layout_keeps_state.
Qed.

Lemma react_counters tk i v :
  (match_count_ (react tk i v) = match_count_ v \/
   0 <= match_count_ (react tk i v)) /\
  (active_match_ordinal_ (react tk i v) = active_match_ordinal_ v \/
   0 <= active_match_ordinal_ (react tk i v)).
Proof.
  destruct i as [[n f | o | | s] | tag | vis shift key | ]; cbn [react step].
  - apply UpdateMatchCount_counters.
  - destruct (UpdateActiveMatchOrdinal_fields v o) as (_ & _ & -> & H).
    split; [left; reflexivity | exact H].
  - destruct (UpdateResultLabel_state tk v) as (-> & -> & _).
    split; left; reflexivity.
  - exact (ContentsChanged_counters tk
             (with_find_text (views.TextField_SetText s (find_text_ v)) v) s).
  - destruct (ButtonPressed_fields v tag) as (_ & -> & ->).
    split; left; reflexivity.
  - destruct (HandleKeystroke_fields v vis shift key) as (_ & -> & ->).
    split; left; reflexivity.
  - destruct (Layout_keeps_state tk v) as (-> & -> & _).
    split; left; reflexivity.
Qed.

Lemma react_search_text tk i v :
  is_edit i = false ->
  views.tf_text (find_text_ (react tk i v)) = views.tf_text (find_text_ v).
Proof.
  destruct i as [[n f | o | | s] | tag | vis shift key | ];
    cbn [react step is_edit]; intros H; try discriminate.
  - rewrite UpdateMatchCount_keeps_text. reflexivity.
  - destruct (UpdateActiveMatchOrdinal_fields v o) as (_ & -> & _).
    reflexivity.
  - apply UpdateResultLabel_search_text.
  - destruct (ButtonPressed_fields v tag) as (-> & _). reflexivity.
  - destruct (HandleKeystroke_fields v vis shift key) as (-> & _).
    reflexivity.
  - apply Layout_keeps_state.
Qed.

(** Whatever happens to a panel, in whatever order, the calls it makes
    on its collaborators come in whole groups: a beep; the end of the
    session; [StopFinding(true)] followed by [set_find_string] of the
    empty string; or [set_find_string] of a non-empty string followed by
    [StartFinding].  So a search is never started without its string
    having just been handed over, never on an empty string, and never
    stopped without clearing the selection. *)
Theorem log_grows_by_blocks
    (tk : Toolkit) (inputs : list Input) (v : FindInPageView) :
  extends_by_blocks v (react_all tk inputs v) /\
  exists bs : list (list Event),
    forallb is_block bs = true /\
    log_ (react_all tk inputs FindInPageView_new) = concat bs.
Proof.
  assert (G : forall w, extends_by_blocks w (react_all tk inputs w)).
  { induction inputs as [ | i inputs IH]; intros w; cbn.
    - apply extends_same. reflexivity.
    - apply (extends_trans _ (react tk i w));
        [apply react_extends | apply IH]. }
  split; [apply G | ].
  destruct (G FindInPageView_new) as (bs & Hbs & E).
  exists bs. split; [exact Hbs | exact E].
Qed.

(** Whatever happens to a panel, neither counter ever falls below a
    bound [lo <= 0] that both respect: from construction on they stay
    at -1 or above, and once they are known (not negative) they stay
    known. *)
Theorem counters_bounded_below
    (tk : Toolkit) (inputs : list Input) (v : FindInPageView) (lo : Z) :
  lo <= 0 -> lo <= match_count_ v -> lo <= active_match_ordinal_ v ->
  lo <= match_count_ (react_all tk inputs v) /\
  lo <= active_match_ordinal_ (react_all tk inputs v).
Proof.
  intros Hlo. revert v.
  induction inputs as [ | i inputs IH]; intros v Hc Ho; cbn.
  - split; assumption.
  - destruct (react_counters tk i v) as [[Ec | Ec] [Eo | Eo]];
      apply IH; lia.
Qed.

Lemma counters_bounded_below_examples :
  (-1 <= match_count_
           (react_all sample_toolkit
              [InCall (CallTextChanged "abc"); InLayout;
               InCall (CallUpdateMatchCount (-1) false);
               InCall CallUpdateResultLabel]
              FindInPageView_new) /\
   -1 <= active_match_ordinal_
           (react_all sample_toolkit
              [InCall (CallTextChanged "abc"); InLayout;
               InCall (CallUpdateMatchCount (-1) false);
               InCall CallUpdateResultLabel]
              FindInPageView_new)) /\
  (0 <= match_count_
          (react_all sample_toolkit
             [InCall (CallUpdateMatchCount (-1) false);
              InButtonPressed FIND_NEXT_TAG]
             panel_matches_then_none) /\
   0 <= active_match_ordinal_
          (react_all sample_toolkit
             [InCall (CallUpdateMatchCount (-1) false);
              InButtonPressed FIND_NEXT_TAG]
             panel_matches_then_none)).
Proof.
  split.
  - apply (counters_bounded_below sample_toolkit _ FindInPageView_new (-1));
      vm_compute; discriminate.
  - apply (counters_bounded_below sample_toolkit _ panel_matches_then_none 0);
      vm_compute; discriminate.
Defined.

(** The panel never rewrites what the user typed: no call, button,
    key or layout pass changes the box's text; only an edit does, and
    the handler that is told of the edit leaves the text alone too. *)
Theorem search_text_only_changes_by_edit
    (tk : Toolkit) (inputs : list Input) (v : FindInPageView) :
  existsb is_edit inputs = false ->
  views.tf_text (find_text_ (react_all tk inputs v)) =
    views.tf_text (find_text_ v) /\
  forall s, views.tf_text (find_text_ (ContentsChanged tk s v)) =
            views.tf_text (find_text_ v).
Proof.
  intros H. split; [ | intros s; apply ContentsChanged_search_text].
  unfold react_all. revert v H.
  induction inputs as [ | i inputs IH]; intros v H; cbn [fold_left existsb] in *.
  - reflexivity.
  - apply orb_false_iff in H as [Hi Hr].
    rewrite (IH _ Hr). apply react_search_text, Hi.
Qed.

Lemma search_text_only_changes_by_edit_example :
  views.tf_text
    (find_text_
       (react_all sample_toolkit
          [InCall (CallUpdateMatchCount 0 true); InCall CallUpdateResultLabel;
           InKeystroke true 0 VK_RETURN; InButtonPressed CLOSE_TAG; InLayout]
          (panel_with_text "abc" FindInPageView_new))) = "abc" /\
  forall s,
    views.tf_text
      (find_text_
         (ContentsChanged sample_toolkit s
            (panel_with_text "abc" FindInPageView_new))) = "abc".
Proof.
  apply (search_text_only_changes_by_edit sample_toolkit
           [InCall (CallUpdateMatchCount 0 true); InCall CallUpdateResultLabel;
            InKeystroke true 0 VK_RETURN; InButtonPressed CLOSE_TAG; InLayout]
           (panel_with_text "abc" FindInPageView_new)).
  reflexivity.
Defined.

(** * More on Layout *)

(** A pass over a panel whose navigation buttons already have their
    preferred widths is not changed by a further pass. *)
Lemma Layout_twice tk v :
  nav_buttons_sized tk v -> Layout tk (Layout tk v) = Layout tk v.
Proof.
  destruct v as [ft lab ff pb nb cb ao tb mc amo bnds lg].
  destruct pb as [pe pf [px py pw ph] pl].
  destruct nb as [ne nf [nx ny nw nh] nl].
  unfold nav_buttons_sized. cbn. intros [Hn Hp]. subst nw pw.
  reflexivity.
Qed.

Lemma UpdateResultLabel_twice tk v :
  nav_buttons_sized tk v ->
  UpdateResultLabel tk (UpdateResultLabel tk v) = UpdateResultLabel tk v.
Proof.
  destruct v as [ft lab ff pb nb cb ao tb mc amo bnds lg].
  destruct ft as [t fb fw fc ff'].
  destruct pb as [pe pf [px py pw ph] pl].
  destruct nb as [ne nf [nx ny nw nh] nl].
  unfold nav_buttons_sized. cbn. intros [Hn Hp]. subst nw pw.
  unfold UpdateResultLabel. cbn [find_text_ views.tf_text].
  rewrite !length_positive_iff.
  destruct t as [ | a t]; cbn [empty negb]; reflexivity.
Qed.

Lemma UpdateResultLabel_sizes_nav_buttons tk v :
  nav_buttons_sized tk (UpdateResultLabel tk v).
Proof.
  unfold UpdateResultLabel.
  destruct (0 <? Z.of_nat (String.length (views.tf_text (find_text_ v))));
    apply Layout_sizes_nav_buttons.
Qed.

(** Layout settles.  A pass over a panel whose navigation buttons
    already have their preferred widths ([w]) is a fixed point: a
    further pass changes nothing.  Since one pass gives them these
    widths, any panel ([v]) is settled after two passes. *)
Theorem Layout_settles (tk : Toolkit) (v w : FindInPageView) :
  nav_buttons_sized tk w ->
  Layout tk (Layout tk w) = Layout tk w /\
  Layout tk (Layout tk (Layout tk v)) = Layout tk (Layout tk v).
Proof.
  intros Hw. split.
  - apply Layout_twice, Hw.
  - apply Layout_twice, Layout_sizes_nav_buttons.
Qed.

Lemma Layout_settles_example :
  Layout sample_toolkit
    (Layout sample_toolkit (panel_laid_out_once sample_toolkit 31)) =
    Layout sample_toolkit (panel_laid_out_once sample_toolkit 31) /\
  Layout sample_toolkit
    (Layout sample_toolkit (Layout sample_toolkit FindInPageView_new)) =
    Layout sample_toolkit (Layout sample_toolkit FindInPageView_new).
Proof.
  apply (Layout_settles sample_toolkit FindInPageView_new
           (panel_laid_out_once sample_toolkit 31)).
  split; reflexivity.
Defined.

(** Refreshing the label settles in the same way: on a panel whose
    navigation buttons have their preferred widths ([w]) a second
    refresh changes nothing, and on any panel ([v]) a third one changes
    nothing. *)
Theorem UpdateResultLabel_settles (tk : Toolkit) (v w : FindInPageView) :
  nav_buttons_sized tk w ->
  UpdateResultLabel tk (UpdateResultLabel tk w) = UpdateResultLabel tk w /\
  UpdateResultLabel tk (UpdateResultLabel tk (UpdateResultLabel tk v)) =
    UpdateResultLabel tk (UpdateResultLabel tk v).
Proof.
  intros Hw. split.
  - apply UpdateResultLabel_twice, Hw.
  - apply UpdateResultLabel_twice, UpdateResultLabel_sizes_nav_buttons.
Qed.

Lemma UpdateResultLabel_settles_example :
  UpdateResultLabel sample_toolkit
    (UpdateResultLabel sample_toolkit (panel_laid_out_once sample_toolkit 31))
    = UpdateResultLabel sample_toolkit (panel_laid_out_once sample_toolkit 31)
  /\
  UpdateResultLabel sample_toolkit
    (UpdateResultLabel sample_toolkit
       (UpdateResultLabel sample_toolkit panel_with_five_matches)) =
    UpdateResultLabel sample_toolkit
      (UpdateResultLabel sample_toolkit panel_with_five_matches).
Proof.
  apply (UpdateResultLabel_settles sample_toolkit panel_with_five_matches
           (panel_laid_out_once sample_toolkit 31)).
  split; reflexivity.
Defined.

Section Layout_more_bounds.

Variable tk : Toolkit.
Variable v : FindInPageView.

Lemma Layout_focus_forwarder :
  focus_forwarder_view_ (Layout tk v) =
    gfx.mkRect (label_x tk v - text_w tk v + text_w tk v)
      (Z.quot (height v - gfx.height (PrevButton_GetPreferredSize tk)) 2)
      (prev_x tk v - (label_x tk v - text_w tk v + text_w tk v))
      (gfx.height (PrevButton_GetPreferredSize tk)).
Proof.
  unfold text_w, label_x, label_w, prev_x, next_x, close_x. reflexivity.
Qed.

End Layout_more_bounds.

Lemma Layout_row_edges (tk : Toolkit) (v : FindInPageView) :
  gfx.x (views.tf_bounds (find_text_ (Layout tk v))) =
    kMarginLeftOfFindTextField /\
  gfx.right (views.tf_bounds (find_text_ (Layout tk v))) =
    gfx.x (views.lb_bounds (match_count_text_ (Layout tk v))) /\
  gfx.right (views.lb_bounds (match_count_text_ (Layout tk v))) +
    kWhiteSpaceAfterMatchCountLabel =
    gfx.x (views.bt_bounds (find_previous_button_ (Layout tk v))).
Proof.
  rewrite Layout_find_text, Layout_match_count_text,
    Layout_find_previous_button.
  unfold text_w, label_x. to_arithmetic. lia.
Qed.

(** Whatever the sizes, a pass puts the text box's left edge at the
    left margin and its right edge on the label's left edge, and leaves
    a gap of exactly 3 pixels between the label and the previous
    button: no preferred size and no panel size can push these three
    apart or into each other. *)
Theorem Layout_text_label_previous (tk : Toolkit) (v : FindInPageView) :
  gfx.x (views.tf_bounds (find_text_ (Layout tk v))) =
    kMarginLeftOfFindTextField /\
  gfx.right (views.tf_bounds (find_text_ (Layout tk v))) =
    gfx.x (views.lb_bounds (match_count_text_ (Layout tk v))) /\
  gfx.right (views.lb_bounds (match_count_text_ (Layout tk v))) +
    kWhiteSpaceAfterMatchCountLabel =
    gfx.x (views.bt_bounds (find_previous_button_ (Layout tk v))).
Proof. exact (Layout_row_edges tk v). Qed.

(** The invisible focus forwarder exactly covers the label and the gap
    after it: it starts on the label's left edge (where the text box
    ends), ends on the previous button's left edge, and has the previous
    button's vertical position and height. *)
Theorem Layout_focus_forwarder_covers_label
    (tk : Toolkit) (v : FindInPageView) :
  gfx.x (focus_forwarder_view_ (Layout tk v)) =
    gfx.x (views.lb_bounds (match_count_text_ (Layout tk v))) /\
  gfx.x (focus_forwarder_view_ (Layout tk v)) =
    gfx.right (views.tf_bounds (find_text_ (Layout tk v))) /\
  gfx.right (focus_forwarder_view_ (Layout tk v)) =
    gfx.x (views.bt_bounds (find_previous_button_ (Layout tk v))) /\
  gfx.w (focus_forwarder_view_ (Layout tk v)) =
    gfx.w (views.lb_bounds (match_count_text_ (Layout tk v))) +
    kWhiteSpaceAfterMatchCountLabel /\
  gfx.y (focus_forwarder_view_ (Layout tk v)) =
    gfx.y (views.bt_bounds (find_previous_button_ (Layout tk v))) /\
  gfx.h (focus_forwarder_view_ (Layout tk v)) =
    gfx.h (views.bt_bounds (find_previous_button_ (Layout tk v))).
Proof.
  rewrite Layout_focus_forwarder, Layout_find_text, Layout_match_count_text,
    Layout_find_previous_button.
  unfold text_w, label_x. to_arithmetic. lia.
Qed.

(** Once the navigation buttons have their preferred widths, the text
    box and the label share a fixed width: together they are 3 pixels
    narrower than the text box would like to be alone.  What the label
    gains the text box loses, and the text box is always at least 33
    pixels narrower than its preferred width, however wide the panel. *)
Theorem Layout_text_box_and_label_share
    (tk : Toolkit) (v : FindInPageView) :
  nav_buttons_sized tk v ->
  gfx.w (views.tf_bounds (find_text_ (Layout tk v))) +
    gfx.w (views.lb_bounds (match_count_text_ (Layout tk v))) =
    gfx.width (TextField_GetPreferredSize tk) -
    kWhiteSpaceAfterMatchCountLabel /\
  gfx.w (views.tf_bounds (find_text_ (Layout tk v))) <=
    gfx.width (TextField_GetPreferredSize tk) -
    kWhiteSpaceAfterMatchCountLabel - kMatchCountMinWidth.
Proof.
  intros [Hn Hp].
  rewrite Layout_find_text, Layout_match_count_text.
  unfold text_w, label_x, prev_x, next_x, close_x.
  rewrite Hn, Hp, GetPreferredSize_width.
  assert (Hlw : kMatchCountMinWidth <= label_w tk v)
    by (unfold label_w; rewrite std_max_is_max; lia).
  revert Hlw. generalize (label_w tk v). intros lw Hlw.
  to_arithmetic. lia.
Qed.

Lemma Layout_text_box_and_label_share_example :
  gfx.w (views.tf_bounds
           (find_text_
              (Layout sample_toolkit (panel_laid_out_once sample_toolkit 31))))
  + gfx.w (views.lb_bounds
             (match_count_text_
                (Layout sample_toolkit
                   (panel_laid_out_once sample_toolkit 31)))) = 300 - 3 /\
  gfx.w (views.tf_bounds
           (find_text_
              (Layout sample_toolkit (panel_laid_out_once sample_toolkit 31))))
    <= 300 - 3 - 30.
Proof.
  apply (Layout_text_box_and_label_share sample_toolkit
           (panel_laid_out_once sample_toolkit 31)).
  split; reflexivity.
Defined.

(** Every child is centred between the panel's top and bottom edges to
    within a pixel, the label and the text box one pixel below that;
    this holds for every height, also for a child higher than the
    panel. *)
Theorem Layout_centres_vertically (tk : Toolkit) (v : FindInPageView) :
  centred_vertically 0 (height v)
    (views.bt_bounds (close_button_ (Layout tk v))) /\
  centred_vertically 0 (height v)
    (views.bt_bounds (find_next_button_ (Layout tk v))) /\
  centred_vertically 0 (height v)
    (views.bt_bounds (find_previous_button_ (Layout tk v))) /\
  centred_vertically 1 (height v)
    (views.lb_bounds (match_count_text_ (Layout tk v))) /\
  centred_vertically 1 (height v)
    (views.tf_bounds (find_text_ (Layout tk v))).
Proof.
  rewrite Layout_find_text, Layout_match_count_text,
    Layout_find_previous_button, Layout_find_next_button,
    Layout_close_button.
  unfold centred_vertically. cbn [gfx.y gfx.h].
  repeat split; Z.to_euclidean_division_equations; lia.
Qed.

(** * Painting *)

Section Paint_facts.

Variable env : PaintEnv.
Variable v : FindInPageView.

(** The cap and the strip of the text box, as [Paint] draws them. *)
Lemma Paint_cap_and_strip :
  exists a b c cap strip rest,
    Paint env v = a :: b :: c :: cap :: strip :: rest /\
    tile_bitmap cap = kBackground_left env /\
    tile_bitmap strip = kBackground /\
    tile_y cap = tile_y strip /\
    tile_w cap = gfx.width (GetBitmapNamed env (kBackground_left env)) /\
    (if UILayoutIsRightToLeft env
     then tile_right strip = tile_x cap /\
          tile_x strip =
            gfx.right (GetBounds_mirrored env
                         (views.bt_bounds (find_previous_button_ v)))
     else tile_right cap = tile_x strip /\
          tile_x strip = gfx.x (views.tf_bounds (find_text_ v)) /\
          tile_right strip = gfx.x (views.bt_bounds (find_previous_button_ v))
          /\ tile_y strip = gfx.y (views.bt_bounds (find_previous_button_ v))).
Proof.
  unfold Paint. cbn zeta. do 6 eexists. split; [reflexivity | ].
  unfold tile_right. cbn [tile_bitmap tile_x tile_y tile_w].
  destruct (UILayoutIsRightToLeft env); repeat split; unfold gfx.right; lia.
Qed.

End Paint_facts.

(** The three background tiles lie side by side across the whole
    panel, whatever its width: the left cap starts at 0, the middle tile
    starts where the cap ends and ends where the right cap starts, and
    the right cap ends on the panel's right edge, at [width()].  All
    three are drawn at the top and come from the same set of bitmaps,
    chosen by [toolbar_blend_]. *)
Theorem Paint_background_spans_panel (env : PaintEnv) (v : FindInPageView) :
  exists l m r rest,
    Paint env v = l :: m :: r :: rest /\
    tile_x l = 0 /\
    tile_right l = tile_x m /\
    tile_right m = tile_x r /\
    tile_right r = width v /\
    (tile_y l = 0 /\ tile_y m = 0 /\ tile_y r = 0) /\
    (tile_bitmap l, tile_bitmap m, tile_bitmap r) =
      if toolbar_blend_ v
      then (IDR_FIND_DLG_LEFT_BACKGROUND, IDR_FIND_DLG_MIDDLE_BACKGROUND,
            IDR_FIND_DLG_RIGHT_BACKGROUND)
      else (IDR_FIND_DLG_LEFT_BB_BACKGROUND, IDR_FIND_DLG_MIDDLE_BB_BACKGROUND,
            IDR_FIND_DLG_RIGHT_BB_BACKGROUND).
Proof.
  unfold Paint. cbn zeta. do 4 eexists. split; [reflexivity | ].
  unfold tile_right, GetLocalBounds, gfx.right.
  cbn [tile_bitmap tile_x tile_y tile_w gfx.x gfx.w].
  generalize (width v). intros pw.
  destruct (toolbar_blend_ v); repeat split; lia.
Qed.

(** On the 500 pixel wide sample panel the right cap starts at 490 and
    ends at 500, and a wider panel moves it along. *)
Lemma Paint_right_cap_follows_width :
  map (fun t => (tile_x t, tile_right t))
      (firstn 3 (Paint sample_paint_env (panel_laid_out sample_toolkit 31)))
    = [(0, 10); (10, 490); (490, 500)] /\
  map (fun t => (tile_x t, tile_right t))
      (firstn 3 (Paint sample_paint_env
                   (with_bounds (gfx.mkRect 0 0 640 31)
                      (panel_laid_out sample_toolkit 31))))
    = [(0, 10); (10, 630); (630, 640)].
Proof. split; reflexivity. Qed.

(** In either reading direction the rounded cap and the border strip of
    the text box touch without overlapping and are drawn at the same
    height: left to right the cap ends where the strip starts, right to
    left the strip ends where the cap starts. *)
Theorem Paint_cap_touches_strip (env : PaintEnv) (v : FindInPageView) :
  exists a b c cap strip rest,
    Paint env v = a :: b :: c :: cap :: strip :: rest /\
    tile_y cap = tile_y strip /\
    if UILayoutIsRightToLeft env
    then tile_right strip = tile_x cap
    else tile_right cap = tile_x strip.
Proof.
  destruct (Paint_cap_and_strip env v)
    as (a & b & c & cap & strip & rest & E & _ & _ & Hy & _ & H).
  exists a, b, c, cap, strip, rest. split; [exact E | ]. split; [exact Hy | ].
  destruct (UILayoutIsRightToLeft env); apply H.
Qed.

(** Left to right, after a layout pass, the border strip runs from the
    left margin, where the text box starts, to the left edge of the
    previous button, at the previous button's height: it lies behind the
    text box, the label and the gap after the label, and nothing else. *)
Theorem Paint_strip_after_Layout
    (env : PaintEnv) (tk : Toolkit) (v : FindInPageView) :
  UILayoutIsRightToLeft env = false ->
  exists a b c cap strip rest,
    Paint env (Layout tk v) = a :: b :: c :: cap :: strip :: rest /\
    tile_x strip = kMarginLeftOfFindTextField /\
    tile_right strip =
      gfx.x (views.bt_bounds (find_previous_button_ (Layout tk v))) /\
    tile_w strip =
      gfx.w (views.tf_bounds (find_text_ (Layout tk v))) +
      gfx.w (views.lb_bounds (match_count_text_ (Layout tk v))) +
      kWhiteSpaceAfterMatchCountLabel /\
    tile_y strip =
      gfx.y (views.bt_bounds (find_previous_button_ (Layout tk v))).
Proof.
  intros Hltr.
  destruct (Paint_cap_and_strip env (Layout tk v))
    as (a & b & c & cap & strip & rest & E & _ & _ & _ & _ & H).
  rewrite Hltr in H. destruct H as (_ & Hx & Hr & Hy).
  exists a, b, c, cap, strip, rest. split; [exact E | ].
  destruct (Layout_row_edges tk v) as (Tx & Tr & Lr).
  revert Hx Hr Hy Tx Tr Lr.
  generalize (views.tf_bounds (find_text_ (Layout tk v))) as tb.
  generalize (views.lb_bounds (match_count_text_ (Layout tk v))) as lb.
  generalize (views.bt_bounds (find_previous_button_ (Layout tk v))) as pb.
  intros pb lb tb Hx Hr Hy Tx Tr Lr.
  unfold tile_right, gfx.right in *.
  split; [lia | ]. split; [exact Hr | ]. split; [lia | exact Hy].
Qed.

Lemma Paint_strip_after_Layout_example :
  exists a b c cap strip rest,
    Paint sample_paint_env
      (Layout sample_toolkit (panel_laid_out_once sample_toolkit 31)) =
      a :: b :: c :: cap :: strip :: rest /\
    tile_x strip = kMarginLeftOfFindTextField /\
    tile_right strip =
      gfx.x (views.bt_bounds
               (find_previous_button_
                  (Layout sample_toolkit
                     (panel_laid_out_once sample_toolkit 31)))) /\
    tile_w strip =
      gfx.w (views.tf_bounds
               (find_text_
                  (Layout sample_toolkit
                     (panel_laid_out_once sample_toolkit 31)))) +
      gfx.w (views.lb_bounds
               (match_count_text_
                  (Layout sample_toolkit
                     (panel_laid_out_once sample_toolkit 31)))) +
      kWhiteSpaceAfterMatchCountLabel /\
    tile_y strip =
      gfx.y (views.bt_bounds
               (find_previous_button_
                  (Layout sample_toolkit
                     (panel_laid_out_once sample_toolkit 31)))).
Proof.
  exact (Paint_strip_after_Layout sample_paint_env sample_toolkit
           (panel_laid_out_once sample_toolkit 31) eq_refl).
Defined.

(** The two edge fragments of the slide animation are drawn exactly
    while [animation_offset_] is positive: [Paint] then makes seven
    canvas calls instead of five, the first five being those of the
    panel at rest, and the two extra tiles are 5 pixels high, start at
    the offset, and repeat the bitmaps and widths of the left and right
    background caps. *)
Theorem Paint_animation_edges (env : PaintEnv) (v : FindInPageView) :
  firstn 5 (Paint env v) = Paint env (with_animation_offset 0 v) /\
  length (Paint env (with_animation_offset 0 v)) = 5%nat /\
  length (skipn 5 (Paint env v)) =
    (if 0 <? animation_offset_ v then 2%nat else 0%nat) /\
  Forall (fun t => tile_y t = animation_offset_ v /\
                   tile_h t = kAnimatingEdgeHeight)
         (skipn 5 (Paint env v)) /\
  map (fun t => (tile_bitmap t, tile_w t)) (skipn 5 (Paint env v)) =
    if 0 <? animation_offset_ v
    then [ (tile_bitmap (nth 0 (Paint env v) (mkTile kBackground 0 0 0 0)),
            tile_w (nth 0 (Paint env v) (mkTile kBackground 0 0 0 0)));
           (tile_bitmap (nth 2 (Paint env v) (mkTile kBackground 0 0 0 0)),
            tile_w (nth 2 (Paint env v) (mkTile kBackground 0 0 0 0))) ]
    else [].
Proof.
  unfold Paint. cbn zeta.
  cbn [firstn skipn app length nth map animation_offset_ with_animation_offset
       toolbar_blend_ find_text_ find_previous_button_ Z.ltb Z.compare
       tile_bitmap tile_w].
  destruct (0 <? animation_offset_ v);
    cbn [app length map tile_bitmap tile_w tile_y tile_h];
    repeat split; repeat constructor.
Qed.

(** * A find reply, from count to label *)

Lemma empty_false (s : string) : s <> "" -> empty s = false.
Proof. destruct s; [contradiction | reflexivity]. Qed.

Lemma string_append_nonempty (a b : string) : b <> "" -> (a ++ b)%string <> "".
Proof. destruct a; cbn; [auto | discriminate]. Qed.

(** When the controller reports a positive count [n] that is stored,
    then an ordinal [o >= 0], then asks for the refresh, on a non-empty
    box ([v]): the label reads "o of n" in the "match found" look, both
    navigation buttons are enabled and nothing beeps.  When it reports
    no match ([w], whatever ordinal [p <= 0] follows): the label reads
    "0 of 0" in the "no match" look, both navigation buttons are
    disabled and the panel beeps once. *)
Theorem find_reply_shown
    (tk : Toolkit) (v w : FindInPageView) (n o p : Z) (f g : bool) :
  views.tf_text (find_text_ v) <> "" -> accepted n f v -> 0 < n -> 0 <= o ->
  views.tf_text (find_text_ w) <> "" -> accepted 0 g w -> p <= 0 ->
  (views.lb_text
     (match_count_text_
        (UpdateResultLabel tk
           (UpdateActiveMatchOrdinal o (UpdateMatchCount n f v)))) =
     GetStringF_IDS_FIND_IN_PAGE_COUNT (IntToWString o) (IntToWString n) /\
   match_found_style
     (match_count_text_
        (UpdateResultLabel tk
           (UpdateActiveMatchOrdinal o (UpdateMatchCount n f v)))) /\
   nav_buttons_enabled
     (UpdateResultLabel tk
        (UpdateActiveMatchOrdinal o (UpdateMatchCount n f v))) /\
   log_ (UpdateResultLabel tk
           (UpdateActiveMatchOrdinal o (UpdateMatchCount n f v))) = log_ v) /\
  (views.lb_text
     (match_count_text_
        (UpdateResultLabel tk
           (UpdateActiveMatchOrdinal p (UpdateMatchCount 0 g w)))) =
     "0 of 0" /\
   no_match_style
     (match_count_text_
        (UpdateResultLabel tk
           (UpdateActiveMatchOrdinal p (UpdateMatchCount 0 g w)))) /\
   nav_buttons_disabled
     (UpdateResultLabel tk
        (UpdateActiveMatchOrdinal p (UpdateMatchCount 0 g w))) /\
   log_ (UpdateResultLabel tk
           (UpdateActiveMatchOrdinal p (UpdateMatchCount 0 g w))) =
     (log_ w ++ [MessageBeep])%list).
Proof.
  intros Tv Av Hn Ho Tw Aw Hp.
  pose proof (empty_false _ Tv) as Ev.
  pose proof (empty_false _ Tw) as Ew.
  split.
  - pose proof (UpdateMatchCount_accepted v n f Av) as E. cbv zeta in E.
    rewrite Ev in E. cbn [orb] in E.
    destruct (Z.ltb_spec 0 n); [ | lia].
    destruct (Z.eqb_spec n 0); [lia | ].
    set (v1 := UpdateMatchCount n f v) in *.
    assert (F1 : match_count_ v1 = n /\ log_ v1 = log_ v /\
                 find_text_ v1 = find_text_ v /\
                 match_found_style (match_count_text_ v1))
      by (rewrite E; repeat split).
    clearbody v1. clear E. destruct F1 as (C1 & L1 & T1 & S1).
    set (v2 := UpdateActiveMatchOrdinal o v1).
    assert (F2 : match_count_ v2 = n /\ log_ v2 = log_ v /\
                 find_text_ v2 = find_text_ v /\
                 match_found_style (match_count_text_ v2) /\
                 active_match_ordinal_ v2 = o).
    { subst v2. unfold UpdateActiveMatchOrdinal.
      destruct (Z.leb_spec 0 o); [ | lia].
      cbn. repeat split; try assumption; apply S1. }
    clearbody v2. destruct F2 as (C2 & L2 & T2 & S2 & O2).
    assert (N2 : views.tf_text (find_text_ v2) <> "") by (rewrite T2; exact Tv).
    destruct (UpdateResultLabel_nonempty tk v2 N2) as (Lt & Lc & Lb).
    destruct (UpdateResultLabel_buttons tk v2) as [Bp Bn].
    destruct (UpdateResultLabel_state tk v2) as (_ & _ & Ll).
    rewrite C2 in *. rewrite O2 in Lt.
    assert (Pn : (0 <? n) = true) by (apply Z.ltb_lt; assumption).
    rewrite Pn in Bp, Bn.
    split; [exact Lt | ]. split.
    + unfold match_found_style. rewrite Lc, Lb. exact S2.
    + split; [split; assumption | ]. rewrite Ll. exact L2.
  - pose proof (UpdateMatchCount_accepted w 0 g Aw) as E. cbv zeta in E.
    rewrite Ew in E. cbn [orb Z.ltb Z.eqb Z.compare] in E.
    set (w1 := UpdateMatchCount 0 g w) in *.
    assert (F1 : match_count_ w1 = 0 /\
                 log_ w1 = (log_ w ++ [MessageBeep])%list /\
                 find_text_ w1 = find_text_ w /\
                 no_match_style (match_count_text_ w1) /\
                 active_match_ordinal_ w1 = 0)
      by (rewrite E; repeat split).
    clearbody w1. clear E. destruct F1 as (C1 & L1 & T1 & S1 & O1).
    set (w2 := UpdateActiveMatchOrdinal p w1).
    assert (F2 : match_count_ w2 = 0 /\
                 log_ w2 = (log_ w ++ [MessageBeep])%list /\
                 find_text_ w2 = find_text_ w /\
                 no_match_style (match_count_text_ w2) /\
                 active_match_ordinal_ w2 = 0).
    { subst w2. unfold UpdateActiveMatchOrdinal.
      destruct (Z.leb_spec 0 p).
      - assert (p = 0) by lia. subst p.
        cbn. repeat split; try assumption; apply S1.
      - repeat split; try assumption; apply S1. }
    clearbody w2. destruct F2 as (C2 & L2 & T2 & S2 & O2).
    assert (N2 : views.tf_text (find_text_ w2) <> "") by (rewrite T2; exact Tw).
    destruct (UpdateResultLabel_nonempty tk w2 N2) as (Lt & Lc & Lb).
    destruct (UpdateResultLabel_buttons tk w2) as [Bp Bn].
    destruct (UpdateResultLabel_state tk w2) as (_ & _ & Ll).
    rewrite C2 in *. rewrite O2 in Lt.
    split; [exact Lt | ]. split.
    + unfold no_match_style. rewrite Lc, Lb. exact S2.
    + split; [split; assumption | ]. rewrite Ll. exact L2.
Qed.

Lemma find_reply_shown_examples :
  (views.lb_text
     (match_count_text_
        (UpdateResultLabel sample_toolkit
           (UpdateActiveMatchOrdinal 2
              (UpdateMatchCount 3 true
                 (panel_with_text "abc" FindInPageView_new))))) = "2 of 3" /\
   match_found_style
     (match_count_text_
        (UpdateResultLabel sample_toolkit
           (UpdateActiveMatchOrdinal 2
              (UpdateMatchCount 3 true
                 (panel_with_text "abc" FindInPageView_new))))) /\
   nav_buttons_enabled
     (UpdateResultLabel sample_toolkit
        (UpdateActiveMatchOrdinal 2
           (UpdateMatchCount 3 true
              (panel_with_text "abc" FindInPageView_new)))) /\
   log_ (UpdateResultLabel sample_toolkit
           (UpdateActiveMatchOrdinal 2
              (UpdateMatchCount 3 true
                 (panel_with_text "abc" FindInPageView_new)))) = []) /\
  (views.lb_text
     (match_count_text_
        (UpdateResultLabel sample_toolkit
           (UpdateActiveMatchOrdinal (-1)
              (UpdateMatchCount 0 true
                 (panel_with_text "abc" FindInPageView_new))))) = "0 of 0" /\
   no_match_style
     (match_count_text_
        (UpdateResultLabel sample_toolkit
           (UpdateActiveMatchOrdinal (-1)
              (UpdateMatchCount 0 true
                 (panel_with_text "abc" FindInPageView_new))))) /\
   nav_buttons_disabled
     (UpdateResultLabel sample_toolkit
        (UpdateActiveMatchOrdinal (-1)
           (UpdateMatchCount 0 true
              (panel_with_text "abc" FindInPageView_new)))) /\
   log_ (UpdateResultLabel sample_toolkit
           (UpdateActiveMatchOrdinal (-1)
              (UpdateMatchCount 0 true
                 (panel_with_text "abc" FindInPageView_new)))) =
     [MessageBeep]).
Proof.
  apply (find_reply_shown sample_toolkit
           (panel_with_text "abc" FindInPageView_new)
           (panel_with_text "abc" FindInPageView_new) 3 2 (-1) true true).
  - cbn. discriminate.
  - split; [lia | ]. cbn. intros [H _]. lia.
  - lia.
  - lia.
  - cbn. discriminate.
  - split; [lia | ]. cbn. intros [H _]. lia.
  - lia.
Defined.

(** With a non-empty box the refreshed label is never empty, also when
    nothing is known yet: counters still at -1, as in a new panel, are
    spelled out as "-1 of -1" rather than cleared. *)
Theorem UpdateResultLabel_shows_unknown_counts
    (tk : Toolkit) (v : FindInPageView) :
  views.tf_text (find_text_ v) <> "" ->
  views.lb_text (match_count_text_ (UpdateResultLabel tk v)) <> "" /\
  (match_count_ v = -1 -> active_match_ordinal_ v = -1 ->
   views.lb_text (match_count_text_ (UpdateResultLabel tk v)) = "-1 of -1").
Proof.
  intros Ht. destruct (UpdateResultLabel_nonempty tk v Ht) as (-> & _).
  split.
  - unfold GetStringF_IDS_FIND_IN_PAGE_COUNT.
    apply string_append_nonempty. discriminate.
  - intros -> ->. reflexivity.
Qed.

Lemma UpdateResultLabel_shows_unknown_counts_example :
  views.lb_text
    (match_count_text_
       (UpdateResultLabel sample_toolkit
          (panel_with_text "abc" FindInPageView_new))) <> "" /\
  views.lb_text
    (match_count_text_
       (UpdateResultLabel sample_toolkit
          (panel_with_text "abc" FindInPageView_new))) = "-1 of -1".
Proof.
  destruct (UpdateResultLabel_shows_unknown_counts sample_toolkit
              (panel_with_text "abc" FindInPageView_new)) as [Hn Hu].
  - cbn. discriminate.
  - split; [exact Hn | ]. apply Hu; reflexivity.
Defined.

(** * Two edge cases *)

(** Told that the box is empty, the handler resets the panel whatever
    state it was in and whatever the field really holds: the count and
    the ordinal end at 0, both navigation buttons end disabled, and the
    controller gets [StopFinding(true)] and then the empty search
    string, preceded by at most one beep. *)
Theorem ContentsChanged_empty_resets (tk : Toolkit) (v : FindInPageView) :
  match_count_ (ContentsChanged tk "" v) = 0 /\
  active_match_ordinal_ (ContentsChanged tk "" v) = 0 /\
  nav_buttons_disabled (ContentsChanged tk "" v) /\
  (log_ (ContentsChanged tk "" v) =
     (log_ v ++ [StopFinding true; set_find_string ""])%list \/
   log_ (ContentsChanged tk "" v) =
     (log_ v ++ [MessageBeep; StopFinding true; set_find_string ""])%list).
Proof.
  rewrite ContentsChanged_empty_eq.
  assert (Hacc : accepted 0 true v).
  { split; [lia | ]. intros (_ & _ & H). discriminate. }
  pose proof (UpdateMatchCount_accepted v 0 true Hacc) as E. cbv zeta in E.
  cbn [Z.eqb Z.ltb Z.compare] in E. rewrite orb_false_r in E.
  set (v1 := UpdateMatchCount 0 true v) in *.
  assert (F : match_count_ v1 = 0 /\ active_match_ordinal_ v1 = 0 /\
              (log_ v1 = log_ v \/ log_ v1 = (log_ v ++ [MessageBeep])%list)).
  { rewrite E. destruct (empty (views.tf_text (find_text_ v)));
      repeat split; auto. }
  clearbody v1. clear E. destruct F as (C & O & L).
  destruct (UpdateResultLabel_state tk v1) as (Sc & So & Sl).
  destruct (UpdateResultLabel_buttons tk v1) as [Bp Bn].
  rewrite C in Bp, Bn.
  unfold nav_buttons_disabled.
  rewrite !emit_match_count, !emit_active_match_ordinal,
    !emit_previous_button, !emit_next_button, !emit_log.
  rewrite Sc, So, Sl, C, O, <- app_assoc.
  split; [reflexivity | ]. split; [reflexivity | ].
  split; [split; assumption | ].
  destruct L as [-> | ->]; [left; reflexivity | right].
  rewrite <- app_assoc. reflexivity.
Qed.

(** The first pass over a panel whose navigation buttons still have
    width 0, as they do after construction, places them by that width:
    the previous button lands on the next button's left edge, and the
    next button starts only 5 pixels left of the close button, so it
    reaches into the close button by its preferred width less 5. *)
Theorem Layout_first_pass (tk : Toolkit) (v : FindInPageView) :
  gfx.w (views.bt_bounds (find_next_button_ v)) = 0 ->
  gfx.w (views.bt_bounds (find_previous_button_ v)) = 0 ->
  gfx.x (views.bt_bounds (find_previous_button_ (Layout tk v))) =
    gfx.x (views.bt_bounds (find_next_button_ (Layout tk v))) /\
  gfx.x (views.bt_bounds (find_next_button_ (Layout tk v))) =
    gfx.x (views.bt_bounds (close_button_ (Layout tk v))) -
    kMarginLeftOfCloseButton /\
  gfx.right (views.bt_bounds (find_next_button_ (Layout tk v))) -
    gfx.x (views.bt_bounds (close_button_ (Layout tk v))) =
    gfx.width (NextButton_GetPreferredSize tk) - kMarginLeftOfCloseButton.
Proof.
  intros Hn Hp.
  rewrite Layout_find_previous_button, Layout_find_next_button,
    Layout_close_button.
  unfold prev_x, next_x. rewrite Hn, Hp.
  generalize (close_x tk v). intros cx.
  to_arithmetic. lia.
Qed.

Lemma Layout_first_pass_new_panel :
  gfx.x (views.bt_bounds
           (find_previous_button_ (Layout sample_toolkit FindInPageView_new)))
    = gfx.x (views.bt_bounds
               (find_next_button_ (Layout sample_toolkit FindInPageView_new)))
  /\
  gfx.x (views.bt_bounds
           (find_next_button_ (Layout sample_toolkit FindInPageView_new))) =
    gfx.x (views.bt_bounds
             (close_button_ (Layout sample_toolkit FindInPageView_new))) -
    kMarginLeftOfCloseButton /\
  gfx.right (views.bt_bounds
               (find_next_button_ (Layout sample_toolkit FindInPageView_new)))
    - gfx.x (views.bt_bounds
               (close_button_ (Layout sample_toolkit FindInPageView_new))) =
    gfx.width (NextButton_GetPreferredSize sample_toolkit) -
    kMarginLeftOfCloseButton.
Proof.
  exact (Layout_first_pass sample_toolkit FindInPageView_new eq_refl eq_refl).
Defined.

(** * The counters after construction *)

Lemma UpdateMatchCount_ordinal n f v :
  active_match_ordinal_ (UpdateMatchCount n f v) =
    if n =? 0 then 0 else active_match_ordinal_ v.
Proof. unfold UpdateMatchCount. split_tests; (reflexivity || lia). Qed.

Lemma UpdateActiveMatchOrdinal_ordinal o v :
  active_match_ordinal_ (UpdateActiveMatchOrdinal o v) =
    if 0 <=? o then o else active_match_ordinal_ v.
Proof. unfold UpdateActiveMatchOrdinal. destruct (0 <=? o); reflexivity. Qed.

(** An input that writes the ordinal leaves it at 0 or above; any other
    input leaves it as it was. *)
Lemma react_ordinal tk i v :
  if sets_ordinal i
  then 0 <= active_match_ordinal_ (react tk i v)
  else active_match_ordinal_ (react tk i v) = active_match_ordinal_ v.
Proof.
  destruct i as [[n f | o | | s] | tag | vis shift key | ];
    cbn [react step sets_ordinal].
  - rewrite UpdateMatchCount_ordinal. destruct (n =? 0); [lia | reflexivity].
  - rewrite UpdateActiveMatchOrdinal_ordinal.
    destruct (Z.leb_spec 0 o); [assumption | reflexivity].
  - apply UpdateResultLabel_state.
  - destruct s as [ | a s]; cbn [empty].
    + rewrite ContentsChanged_empty_eq, !emit_active_match_ordinal.
      destruct (UpdateResultLabel_state tk
                  (UpdateMatchCount 0 true
                     (with_find_text
                        (views.TextField_SetText "" (find_text_ v)) v)))
        as (_ & -> & _).
      rewrite UpdateMatchCount_ordinal. cbn [Z.eqb]. lia.
    + unfold ContentsChanged. rewrite length_positive_iff. cbn [empty negb].
      reflexivity.
  - apply ButtonPressed_fields.
  - apply HandleKeystroke_fields.
  - apply Layout_keeps_state.
Qed.

Lemma react_all_ordinal_kept tk inputs :
  forall v, existsb sets_ordinal inputs = false ->
  active_match_ordinal_ (react_all tk inputs v) = active_match_ordinal_ v.
Proof.
  unfold react_all.
  induction inputs as [ | i inputs IH]; intros v H; cbn [fold_left existsb] in *.
  - reflexivity.
  - apply orb_false_iff in H as [Hi Hr].
    rewrite (IH _ Hr).
    pose proof (react_ordinal tk i v) as R. rewrite Hi in R. exact R.
Qed.

Lemma react_all_ordinal_known tk inputs :
  forall v, 0 <= active_match_ordinal_ v ->
  0 <= active_match_ordinal_ (react_all tk inputs v).
Proof.
  unfold react_all.
  induction inputs as [ | i inputs IH]; intros v H; cbn [fold_left].
  - exact H.
  - apply IH. destruct (react_counters tk i v) as [_ [E | E]]; lia.
Qed.

Lemma react_all_ordinal_set tk inputs :
  forall v, existsb sets_ordinal inputs = true ->
  0 <= active_match_ordinal_ (react_all tk inputs v).
Proof.
  induction inputs as [ | i inputs IH]; intros v H; cbn [existsb] in H.
  - discriminate.
  - change (react_all tk (i :: inputs) v)
      with (react_all tk inputs (react tk i v)).
    pose proof (react_ordinal tk i v) as R.
    destruct (sets_ordinal i).
    + apply react_all_ordinal_known, R.
    + apply IH, H.
Qed.

(** C10, as the claim has it, fails: the first update the panel accepts
    need not bring the ordinal into range.  A new panel accepts a count
    of 5 and stores it, and its ordinal is still -1. *)
Lemma ordinal_unknown_after_accepted_count :
  accepted 5 true FindInPageView_new /\
  match_count_ (UpdateMatchCount 5 true FindInPageView_new) = 5 /\
  ~ 0 <= active_match_ordinal_ (UpdateMatchCount 5 true FindInPageView_new).
Proof.
  split; [ | split].
  - split; [lia | ]. intros (H & _). vm_compute in H. discriminate.
  - reflexivity.
  - vm_compute. intros H. apply H. reflexivity.
Qed.

(** C10, amended.  A new panel has both counters at -1 and both
    navigation buttons disabled, so its ordinal is not yet a valid "0 or
    1-based" ordinal.  The ordinal stays at -1 through every sequence of
    inputs ([quiet]) none of which writes it: rejected updates, but
    also accepted positive counts, label refreshes, non-empty edits,
    buttons, keys and layout passes.  It is 0 or above after every
    sequence ([loud]) that holds a count of zero, an ordinal that is
    not negative, or an edit that empties the box. *)
Theorem ordinal_unknown_until_written
    (tk : Toolkit) (quiet loud : list Input) :
  existsb sets_ordinal quiet = false ->
  existsb sets_ordinal loud = true ->
  (match_count_ FindInPageView_new = -1 /\
   active_match_ordinal_ FindInPageView_new = -1 /\
   nav_buttons_disabled FindInPageView_new) /\
  active_match_ordinal_ (react_all tk quiet FindInPageView_new) = -1 /\
  ~ 0 <= active_match_ordinal_ (react_all tk quiet FindInPageView_new) /\
  0 <= active_match_ordinal_ (react_all tk loud FindInPageView_new).
Proof.
  intros Hq Hl.
  destruct FindInPageView_new_counters as (C & O & B & _).
  split; [split; [exact C | split; [exact O | exact B]] | ].
  rewrite (react_all_ordinal_kept tk quiet _ Hq), O.
  split; [reflexivity | ]. split; [lia | ].
  apply react_all_ordinal_set, Hl.
Qed.

(** A stale count, an accepted count of 5, a stale ordinal, a refresh,
    an edit and a key press leave the ordinal unknown; the ordinal 2
    after the count of 5 makes it known. *)
Lemma ordinal_unknown_until_written_examples :
  (match_count_ FindInPageView_new = -1 /\
   active_match_ordinal_ FindInPageView_new = -1 /\
   nav_buttons_disabled FindInPageView_new) /\
  active_match_ordinal_
    (react_all sample_toolkit
       [InCall (CallUpdateMatchCount (-1) false);
        InCall (CallUpdateMatchCount 5 true);
        InCall (CallUpdateActiveMatchOrdinal (-1));
        InCall CallUpdateResultLabel;
        InCall (CallTextChanged "abc");
        InKeystroke true 0 VK_RETURN]
       FindInPageView_new) = -1 /\
  ~ 0 <= active_match_ordinal_
           (react_all sample_toolkit
              [InCall (CallUpdateMatchCount (-1) false);
               InCall (CallUpdateMatchCount 5 true);
               InCall (CallUpdateActiveMatchOrdinal (-1));
               InCall CallUpdateResultLabel;
               InCall (CallTextChanged "abc");
               InKeystroke true 0 VK_RETURN]
              FindInPageView_new) /\
  0 <= active_match_ordinal_
         (react_all sample_toolkit
            [InCall (CallUpdateMatchCount 5 true);
             InCall (CallUpdateActiveMatchOrdinal 2)]
            FindInPageView_new).
Proof.
  exact (ordinal_unknown_until_written sample_toolkit
           [InCall (CallUpdateMatchCount (-1) false);
            InCall (CallUpdateMatchCount 5 true);
            InCall (CallUpdateActiveMatchOrdinal (-1));
            InCall CallUpdateResultLabel;
            InCall (CallTextChanged "abc");
            InKeystroke true 0 VK_RETURN]
           [InCall (CallUpdateMatchCount 5 true);
            InCall (CallUpdateActiveMatchOrdinal 2)]
           eq_refl eq_refl).
Defined.
